(** * Human-in-the-loop file agent: a shallow embedding and its properties

    The development follows the three modules of the program:
    - [file_agent.py]: operation kinds, the risk classifier, the path
      guard and the executor;
    - [slack_approval_mcp.py]: the approval request record, the message
      classifiers, the resolution step and the polling loop;
    - [orchestrator.py]: the audit log, the fallback executor and the
      top-level request flow.

    Python [str] values are modelled by [string], as sequences of ASCII
    characters: case folding, whitespace and decimal digits are the
    ASCII ones, and texts that hold other characters are not among the
    inputs considered.  Exceptions are the subclasses of [Exception]; a
    computation that may raise returns a sum. *)

From Stdlib Require Import ZArith Lia Bool Ascii String List.
From stdpp Require Import base option list gmap strings pretty.

Local Open Scope Z_scope.

(** ** Python strings *)

Module PyStr.

Definition lower_ascii (c : ascii) : ascii :=
  let n := nat_of_ascii c in
  if ((65 <=? n)%nat && (n <=? 90)%nat)%bool then ascii_of_nat (n + 32) else c.

(** [s.lower()] *)
Fixpoint lower (s : string) : string :=
  match s with
  | EmptyString => EmptyString
  | String c s' => String (lower_ascii c) (lower s')
  end.

(** [s.startswith(p)] *)
Fixpoint startswith (p s : string) : bool :=
  match p, s with
  | EmptyString, _ => true
  | String _ _, EmptyString => false
  | String a p', String b s' => if Ascii.eqb a b then startswith p' s' else false
  end.

(** [needle in hay] on strings *)
Fixpoint str_in (needle hay : string) : bool :=
  startswith needle hay ||
  match hay with
  | EmptyString => false
  | String _ hay' => str_in needle hay'
  end.

(** [s.endswith(c)] for a one-character suffix *)
Fixpoint endswith_char (c : ascii) (s : string) : bool :=
  match s with
  | EmptyString => false
  | String a EmptyString => Ascii.eqb a c
  | String _ s' => endswith_char c s'
  end.

(** [s.split(sep)] for a one-character separator *)
Fixpoint split (sep : ascii) (s : string) : list string :=
  match s with
  | EmptyString => [EmptyString]
  | String c s' =>
      if Ascii.eqb c sep then EmptyString :: split sep s'
      else match split sep s' with
           | h :: t => String c h :: t
           | [] => [String c EmptyString]
           end
  end.

(** [sep.join(l)] *)
Definition join (sep : string) (l : list string) : string := String.concat sep l.

(** truthiness of a string: [if s:] *)
Definition truthy (s : string) : bool := negb (String.eqb s EmptyString).

Definition isspace (c : ascii) : bool :=
  let n := nat_of_ascii c in
  (((9 <=? n)%nat && (n <=? 13)%nat) || ((28 <=? n)%nat && (n <=? 32)%nat))%bool.

Fixpoint lstrip (s : string) : string :=
  match s with
  | String c s' => if isspace c then lstrip s' else s
  | EmptyString => EmptyString
  end.

Fixpoint rstrip (s : string) : string :=
  match s with
  | EmptyString => EmptyString
  | String c s' =>
      match rstrip s' with
      | EmptyString => if isspace c then EmptyString else String c EmptyString
      | r => String c r
      end
  end.

(** [s.strip()] *)
Definition strip (s : string) : string := rstrip (lstrip s).

Definition endswith (suffix s : string) : bool :=
  let n := String.length s in
  let k := String.length suffix in
  ((k <=? n)%nat && String.eqb (String.substring (n - k) k s) suffix)%bool.

(** [s[a:-b]] for [a + b <= len(s)], and the empty string otherwise *)
Definition slice (a b : nat) (s : string) : string :=
  String.substring a (String.length s - a - b) s.

End PyStr.

(** ** [posixpath]: the three library functions the path guard uses *)

Module PosixPath.
Import PyStr.

Definition sep : ascii := "/"%char.

(** [os.path.join(a, b)] *)
Definition join (a b : string) : string :=
  if startswith "/" b then b
  else if (negb (truthy a) || endswith_char sep a)%bool then a +:+ b
  else a +:+ "/" +:+ b.

Definition normpath_step (initial_slashes : nat) (new_comps : list string) (comp : string)
  : list string :=
  if (String.eqb comp "" || String.eqb comp ".")%bool then new_comps
  else if (negb (String.eqb comp "..")
           || ((initial_slashes =? 0)%nat && bool_decide (new_comps = []))
           || match last new_comps with
              | Some c => String.eqb c ".."
              | None => false
              end)%bool
       then new_comps ++ [comp]
       else removelast new_comps.

(** [os.path.normpath(path)] *)
Definition normpath (path : string) : string :=
  if negb (truthy path) then "."
  else
    let initial_slashes : nat :=
      if startswith "/" path
      then if (startswith "//" path && negb (startswith "///" path))%bool then 2%nat else 1%nat
      else 0%nat in
    let comps := fold_left (normpath_step initial_slashes) (split sep path) [] in
    let p := String.concat "" (repeat "/"%string initial_slashes) +:+ PyStr.join "/" comps in
    if truthy p then p else ".".

(** [os.path.abspath(path)] in a process whose current directory is [cwd] *)
Definition abspath (cwd path : string) : string :=
  normpath (if startswith "/" path then path else join cwd path).

Definition components (p : string) : list string :=
  filter (fun c => c ≠ ""%string ∧ c ≠ "."%string) (split sep p).

Fixpoint common_prefix (l1 l2 : list string) : list string :=
  match l1, l2 with
  | a :: l1', b :: l2' => if String.eqb a b then a :: common_prefix l1' l2' else []
  | _, _ => []
  end.

(** [os.path.commonpath([p1, p2])]: the longest common sub-path, or
    [None] for the [ValueError] raised when an absolute and a relative
    path are mixed. *)
Definition commonpath (p1 p2 : string) : option string :=
  let abs1 := startswith "/" p1 in
  let abs2 := startswith "/" p2 in
  if Bool.eqb abs1 abs2
  then Some ((if abs1 then "/" else "") +:+
             PyStr.join "/" (common_prefix (components p1) (components p2)))
  else None.

(** A path component: no separator in it, not empty and not [.]. *)
Definition component (c : string) : Prop :=
  str_in "/" c = false /\ c <> ""%string /\ c <> "."%string.

(** The absolute path with the given components. *)
Definition rooted (cs : list string) : string := "/" +:+ PyStr.join "/" cs.

(** What [commonpath] keeps of a split path. *)
Definition kept (l : list string) : list string :=
  filter (fun c : string => c ≠ ""%string ∧ c ≠ "."%string) l.

End PosixPath.

(** ** Python values, exceptions and the effect monad *)

Module Py.

(** The subclasses of [Exception] the program raises or catches, each
    with the message [str(e)] returns. *)
Inductive exn :=
| Exception (msg : string)
| ValueError (msg : string)
| AttributeError (msg : string).

Definition str_exn (e : exn) : string :=
  match e with
  | Exception msg | ValueError msg | AttributeError msg => msg
  end.

(** The objects a generated snippet may leave in [result]. *)
Inductive pyobj :=
| PyNone
| PyStr (s : string)
| PyList (l : list string).

Definition nl : string := String (ascii_of_nat 10) EmptyString.

(** A computation over a mutable store [S] that returns or raises.
    Mutations made before a raise stay in the store. *)
Definition M (S A : Type) : Type := S -> (exn + A) * S.

Definition ret {S A} (a : A) : M S A := fun s => (inr a, s).
Definition raise {S A} (e : exn) : M S A := fun s => (inl e, s).
Definition bind {S A B} (c : M S A) (k : A -> M S B) : M S B :=
  fun s => match c s with
           | (inr a, s') => k a s'
           | (inl e, s') => (inl e, s')
           end.
(** [try: c  except Exception as e: h e] *)
Definition try_except {S A} (c : M S A) (h : exn -> M S A) : M S A :=
  fun s => match c s with
           | (inr a, s') => (inr a, s')
           | (inl e, s') => h e s'
           end.
Definition modify {S} (f : S -> S) : M S unit := fun s => (inr tt, f s).
Definition of_sum {S A} (r : exn + A) : M S A := fun s => (r, s).

(** Run a computation over a part [T] of the store [S]. *)
Definition zoom {S T A} (get : S -> T) (set : T -> S -> S) (c : M T A) : M S A :=
  fun s => let '(r, t) := c (get s) in (r, set t s).

End Py.

Notation "'do' x <- c ; k" := (Py.bind c (fun x => k))
  (at level 10, x name, c at level 100, k at level 200).
Notation "c ;; k" := (Py.bind c (fun _ => k))
  (at level 100, k at level 200, right associativity).

(** ** file_agent.py *)

Module FileAgent.
Import PyStr Py.

Inductive OperationType := LIST | READ | DELETE | MOVE | WRITE.

(** [OperationType.value] *)
Definition type_value (t : OperationType) : string :=
  match t with
  | LIST => "list" | READ => "read" | DELETE => "delete"
  | MOVE => "move" | WRITE => "write"
  end.

#[global] Instance OperationType_eq_dec : EqDecision OperationType.
Proof. solve_decision. Defined.

#[global] Instance OperationType_countable : Countable OperationType.
Proof.
  refine (inj_countable'
            (fun t => match t with
                      | LIST => 0 | READ => 1 | DELETE => 2 | MOVE => 3 | WRITE => 4
                      end)%nat
            (fun n => match n with
                      | 0 => LIST | 1 => READ | 2 => DELETE | 3 => MOVE | _ => WRITE
                      end)%nat _).
  by intros [].
Defined.

Record FileOperation := {
  type : OperationType;
  path : string;
  destination : option string;
  content : option string
}.

(** The attributes of a [FileManagementAgent] the program reads. *)
Record agent := {
  working_directory : string;
  high_risk_operations : gset OperationType
}.

(** What the agent reaches outside the program. *)
Record Env := {
  cwd : string;
  (** [parse_intent]: the chat completion on the user's input,
      [json.loads] of its reply and the [FileOperation] constructor *)
  intent : string -> exn + FileOperation;
  (** the reply's [content] of the code-generation completion *)
  completion : string -> exn + string;
  (** [exec(code, safe_globals, exec_locals)], then
      [exec_locals.get("result")] *)
  exec : string -> exn + pyobj
}.

(** External calls, in the order they are made. *)
Inductive agent_call :=
| CallIntent (user_input : string)
| CallCompletion (prompt : string)
| CallExec (code : string).

Definition log {A} (c : agent_call) (r : exn + A) : M (list agent_call) A :=
  modify (fun t => t ++ [c]) ;; of_sum r.

(** [FileManagementAgent.__init__] *)
Definition init (env : Env) (working_directory : string) : agent :=
  {| working_directory := PosixPath.abspath (cwd env) working_directory;
     high_risk_operations := {[ DELETE; MOVE; WRITE ]} |}.

Definition is_high_risk_operation (self : agent) (operation : FileOperation) : bool :=
  bool_decide (type operation ∈ high_risk_operations self).

Definition _get_full_path (env : Env) (self : agent) (path : string) : string :=
  PosixPath.abspath (cwd env) (PosixPath.join (working_directory self) path).

(** [None] stands for the [ValueError] of [os.path.commonpath]. *)
Definition _is_path_allowed (self : agent) (path : string) : option bool :=
  match PosixPath.commonpath path (working_directory self) with
  | Some c => Some (String.eqb c (working_directory self))
  | None => None
  end.

Definition base_prompt : string :=
  "Generate Python code that performs the following file operation and sets the result in a variable named 'result'. " +:+
  "Use only standard Python libraries (os, shutil). Do not include imports in the code. " +:+
  "Do not define any functions; write the code directly.".

Definition _create_operation_prompt (operation : FileOperation) (full_path : string) : string :=
  match type operation with
  | LIST => base_prompt +:+ nl +:+ "List files in directory: " +:+ full_path +:+
            ". Set 'result' to a list of filenames."
  | DELETE => base_prompt +:+ nl +:+ "Delete the file: " +:+ full_path +:+
              ". Set 'result' to a success message or error message."
  | _ => base_prompt
  end.

Definition _get_ai_generated_code (env : Env) (prompt : string) : M (list agent_call) string :=
  do reply <- log (CallCompletion prompt) (completion env prompt);
  let code := strip reply in
  if (startswith "```python" code && endswith "```" code)%bool then ret (strip (slice 9 3 code))
  else if (startswith "```" code && endswith "```" code)%bool then ret (strip (slice 3 3 code))
  else ret code.

Definition _execute_code_snippet (env : Env) (code : string) : M (list agent_call) pyobj :=
  try_except (log (CallExec code) (exec env code))
    (fun e => raise (Exception ("Failed to execute AI-generated code: " +:+ str_exn e +:+
                                nl +:+ "Code: " +:+ code))).

Definition execute_operation (env : Env) (self : agent) (operation : FileOperation)
  : M (list agent_call) pyobj :=
  let full_path := _get_full_path env self (path operation) in
  match _is_path_allowed self full_path with
  | None => raise (ValueError "Can't mix absolute and relative paths")
  | Some false =>
      raise (ValueError ("Operation not allowed outside working directory: " +:+ full_path))
  | Some true =>
      let prompt := _create_operation_prompt operation full_path in
      do code_snippet <- _get_ai_generated_code env prompt;
      _execute_code_snippet env code_snippet
  end.

Definition parse_intent (env : Env) (user_input : string) : M (list agent_call) FileOperation :=
  log (CallIntent user_input) (intent env user_input).

(** The class defines no [_move_file]: looking the attribute up on an
    agent raises [AttributeError]. *)
Definition _move_file (self : agent) (src dst : string) : M (list agent_call) unit :=
  raise (AttributeError "'FileManagementAgent' object has no attribute '_move_file'").

End FileAgent.

(** ** slack_approval_mcp.py *)

Module SlackApproval.
Import PyStr Py.

Inductive ApprovalStatus := PENDING | APPROVED | DENIED | TIMEOUT.

#[global] Instance ApprovalStatus_eq_dec : EqDecision ApprovalStatus.
Proof. solve_decision. Defined.

(** [ApprovalStatus.value] *)
Definition status_value (s : ApprovalStatus) : string :=
  match s with
  | PENDING => "pending" | APPROVED => "approved"
  | DENIED => "denied" | TIMEOUT => "timeout"
  end.

(** Datetimes are microseconds since the epoch. *)
Record ApprovalRequest := {
  id : string;
  operation : FileAgent.FileOperation;
  timestamp : Z;
  status : ApprovalStatus;
  context : string;
  responded_by : option string;
  response_time : option Z
}.

(** The request [request_approval] creates. *)
Definition new_request (id : string) (operation : FileAgent.FileOperation) (timestamp : Z)
           (context : string) : ApprovalRequest :=
  {| id := id; operation := operation; timestamp := timestamp; status := PENDING;
     context := context; responded_by := None; response_time := None |}.

Definition set_status (s : ApprovalStatus) (r : ApprovalRequest) : ApprovalRequest :=
  {| id := id r; operation := operation r; timestamp := timestamp r; status := s;
     context := context r; responded_by := responded_by r;
     response_time := response_time r |}.

Definition set_response (who : string) (now : Z) (r : ApprovalRequest) : ApprovalRequest :=
  {| id := id r; operation := operation r; timestamp := timestamp r; status := status r;
     context := context r; responded_by := Some who; response_time := Some now |}.

(** A message dictionary: the keys the program reads, [None] for an
    absent key.  Values are strings, as [_parse_csv_messages] builds
    them from a row that has all the fields of the header; [value]
    holds [str(message["value"])]. *)
Module Msg.
Record attachment := { callback_id : option string }.
Record dict := {
  user : option string;
  username : option string;
  text : option string;
  ts : option string;
  channel : option string;
  value : option string;
  attachments : option (list attachment)
}.
End Msg.

(** An element of the fetched message list: a dictionary, a string, or
    any other object, of which the program uses the attribute [text]
    (when it has one) and [str(message)]. *)
Inductive message :=
| MDict (d : Msg.dict)
| MStr (s : string)
| MObj (text_attr : option string) (repr : string).

(** [result.content] of a history fetch, by the type tests of the loop. *)
Inductive payload :=
| PStr (s : string)
| PList (l : list message)
| PDict (messages : option (list message))
| POther.

(** The attributes of a [SlackApprovalMCP] the program reads. *)
Record client := {
  channel : string;
  timeout_minutes : Z;
  bot_user_id : option string;
  message_sent_timestamp : option Z
}.

(** [SlackApprovalMCP.__init__] *)
Definition init (channel : string) (timeout_minutes : Z) : client :=
  {| channel := channel; timeout_minutes := timeout_minutes;
     bot_user_id := None; message_sent_timestamp := None |}.

(** What the loop does, in order: a history fetch, a sleep, and a call
    of [_process_response] with the status before and after it. *)
Inductive event :=
| EvFetch
| EvSleep (seconds : Z)
| EvProcess (m : message) (before after : ApprovalStatus).

(** The local variables of [_wait_for_response], and the trace of what
    the loop has done so far (the trace is not a variable of the
    program). *)
Record loop_state := {
  seen_message_timestamps : gset string;
  request : ApprovalRequest;
  check_interval : Z;
  trace : list event
}.

(** [if msg_ts: seen_message_timestamps.add(msg_ts)] *)
Definition add_seen (msg_ts : string) (st : loop_state) : loop_state :=
  if truthy msg_ts
  then {| seen_message_timestamps := {[ msg_ts ]} ∪ seen_message_timestamps st;
          request := request st; check_interval := check_interval st; trace := trace st |}
  else st.

Definition emit (e : event) (st : loop_state) : loop_state :=
  {| seen_message_timestamps := seen_message_timestamps st;
     request := request st; check_interval := check_interval st;
     trace := trace st ++ [e] |}.

Definition set_request (r : ApprovalRequest) (st : loop_state) : loop_state :=
  {| seen_message_timestamps := seen_message_timestamps st;
     request := r; check_interval := check_interval st; trace := trace st |}.

Definition set_check_interval (n : Z) (st : loop_state) : loop_state :=
  {| seen_message_timestamps := seen_message_timestamps st;
     request := request st; check_interval := n; trace := trace st |}.

(** [await asyncio.sleep(n)] *)
Definition sleep (n : Z) (st : loop_state) : loop_state := emit (EvSleep n) st.

Inductive outcome :=
| Returned (st : loop_state)
| Running (st : loop_state).

(** How one iteration of the [while] ends: the loop returns or goes on,
    or an exception leaves the handler, with the loop's variables as
    they are at that moment. *)
Inductive iteration :=
| Normal (o : outcome)
| Escaped (e : exn) (st : loop_state).

(** One iteration of the [while]: what the history fetch gave and the
    clock value [_process_response] reads. *)
Inductive fetch_result :=
| FetchRaise (e : exn)
| FetchNoContent
| FetchContent (c : payload).

Record poll := { fetched : fetch_result; clock : Z }.

(** The regular expression [retry after (\d+)([ms])] on ASCII text,
    where [\d] is one of the ten characters 0 to 9. *)
Definition is_digit (c : ascii) : bool :=
  let n := nat_of_ascii c in ((48 <=? n)%nat && (n <=? 57)%nat)%bool.

Fixpoint span_digits (s : string) : string * string :=
  match s with
  | String c s' =>
      if is_digit c then let '(d, r) := span_digits s' in (String c d, r)
      else (EmptyString, s)
  | EmptyString => (EmptyString, EmptyString)
  end.

(** The number a string of decimal digits denotes. *)
Definition int_of_digits (s : string) : Z :=
  fold_left (fun acc c => 10 * acc + (Z.of_nat (nat_of_ascii c) - 48))
            (list_ascii_of_string s) 0.

(** [sys.get_int_max_str_digits()] as the interpreter starts; the
    program never changes it. *)
Definition int_max_str_digits : nat := 4300.

(** What [int] raises on a string of [n] digits, [n] over the limit. *)
Definition digit_limit_error (n : nat) : exn :=
  ValueError ("Exceeds the limit (" +:+ pretty int_max_str_digits +:+
              " digits) for integer string conversion: value has " +:+ pretty n +:+
              " digits; use sys.set_int_max_str_digits() to increase the limit").

(** [int(s)] on a non-empty string of decimal digits: a string of more
    than [int_max_str_digits] characters, leading zeros among them, is
    refused with a [ValueError]. *)
Definition int (s : string) : exn + Z :=
  if (int_max_str_digits <? String.length s)%nat
  then inl (digit_limit_error (String.length s))
  else inr (int_of_digits s).

Fixpoint drop_chars (n : nat) (s : string) : string :=
  match n, s with
  | S n', String _ s' => drop_chars n' s'
  | _, _ => s
  end.

(** a match that starts at the first character *)
Definition retry_match_here (s : string) : option (string * ascii) :=
  if startswith "retry after " s then
    let '(digits, rest) := span_digits (drop_chars 12 s) in
    match digits, rest with
    | String _ _, String u _ =>
        if (Ascii.eqb u "m" || Ascii.eqb u "s")%bool then Some (digits, u) else None
    | _, _ => None
    end
  else None.

(** [re.search]: the leftmost match, as groups 1 and 2 *)
Fixpoint retry_search (s : string) : option (string * ascii) :=
  match retry_match_here s with
  | Some g => Some g
  | None => match s with
            | String _ s' => retry_search s'
            | EmptyString => None
            end
  end.

Section Client.

(** [datetime.fromtimestamp(float(s))], [None] when either raises *)
Variable fromtimestamp : string -> option Z.
(** The rows [csv.DictReader] yields before it stops, for a table in
    which no line has fewer fields than the header: every value of a
    row is then a string, and a key is absent when the header has no
    such column. (On a shorter line the reader fills the missing fields
    with [None]; such tables are not among the inputs considered
    here.) *)
Variable DictReader : string -> list (gmap string string).
(** [json.loads], [None] when it raises *)
Variable json_loads : string -> option payload.

Definition _parse_csv_messages (csv_content : string) : list message :=
  map (fun row : gmap string string =>
         MDict {| Msg.user := Some (default "" (row !! "UserID"));
                  Msg.text := Some (default "" (row !! "Text"));
                  Msg.ts := Some (default "" (row !! "Time"));
                  Msg.username := Some (default "" (row !! "UserName"));
                  Msg.channel := Some (default "" (row !! "Channel"));
                  Msg.value := None;
                  Msg.attachments := None |})
      (DictReader csv_content).

Definition _is_bot_message (self : client) (m : message) : bool :=
  match m with
  | MDict d =>
      let user_id := default "" (Msg.user d) in
      let username := default "" (Msg.username d) in
      if match bot_user_id self with
         | Some b => (truthy b && String.eqb user_id b)%bool
         | None => false
         end
      then true
      else if (str_in "bot" (lower username) || str_in "app" (lower username))%bool
      then true
      else
        let text := default "" (Msg.text d) in
        if (str_in "Agent Approval Request" text || str_in "To approve, reply:" text)%bool
        then true
        else
          match message_sent_timestamp self, Msg.ts d with
          | Some sent, Some t =>
              match fromtimestamp t with
              | Some msg_time => Z.abs (msg_time - sent) <? 5 * 1000000
              | None => false
              end
          | _, _ => false
          end
  | _ => false
  end.

Definition text_matches (approval_id text : string) : bool :=
  let text_lower := lower text in
  let approval_id_lower := lower approval_id in
  let has_approval_id := str_in approval_id_lower text_lower in
  let has_approve_word := str_in "approve" text_lower in
  let has_deny_word := (str_in "deny" text_lower || str_in "reject" text_lower)%bool in
  (has_approval_id && (has_approve_word || has_deny_word))%bool.

Definition _is_approval_response (m : message) (approval_id : string) : bool :=
  match m with
  | MDict d =>
      if existsb (fun a => match Msg.callback_id a with
                           | Some c => str_in approval_id c
                           | None => false
                           end)
                 (default [] (Msg.attachments d))
      then true
      else if text_matches approval_id (default "" (Msg.text d)) then true
      else match Msg.value d with
           | Some v => str_in approval_id v
           | None => false
           end
  | MStr s => text_matches approval_id s
  | MObj _ _ => text_matches approval_id ""
  end.

Definition _process_response (now : Z) (m : message) (request : ApprovalRequest)
  : ApprovalRequest :=
  let '(who, text) :=
    match m with
    | MDict d =>
        (match Msg.username d with
         | Some u => u
         | None => default "unknown" (Msg.user d)
         end, default "" (Msg.text d))
    | MStr s => ("unknown"%string, s)
    | MObj _ repr => ("unknown"%string, repr)
    end in
  let request := set_response who now request in
  let text_lower := lower text in
  let approval_id_lower := lower (id request) in
  if (str_in "approve" text_lower && str_in approval_id_lower text_lower)%bool
  then set_status APPROVED request
  else if ((str_in "deny" text_lower || str_in "reject" text_lower)
           && str_in approval_id_lower text_lower)%bool
  then set_status DENIED request
  else request.

(** The list the loop iterates over, from [result.content]. *)
Definition message_list (messages_data : payload) : list message :=
  match messages_data with
  | PStr s =>
      if str_in "UserID,UserName" s then _parse_csv_messages s
      else match json_loads s with
           | Some (PDict messages) => default [] messages
           | _ => []
           end
  | PList (MObj (Some csv_content) _ :: _) =>
      if str_in "UserID,UserName" csv_content then _parse_csv_messages csv_content
      else []
  | PList l => l
  | PDict messages => default [] messages
  | POther => []
  end.

Definition msg_ts (m : message) : string :=
  match m with
  | MDict d => default "" (Msg.ts d)
  | _ => ""
  end.

(** The body of [for i, message in enumerate(message_list)]. *)
Definition handle_message (self : client) (now : Z) (st : loop_state) (m : message)
  : outcome :=
  if (truthy (msg_ts m) && bool_decide (msg_ts m ∈ seen_message_timestamps st))%bool
  then Running st
  else if _is_bot_message self m then Running (add_seen (msg_ts m) st)
  else if _is_approval_response m (id (request st)) then
    let st := add_seen (msg_ts m) st in
    let r := _process_response now m (request st) in
    let st := emit (EvProcess m (status (request st)) (status r)) (set_request r st) in
    if bool_decide (status r ≠ PENDING) then Returned st else Running st
  else Running (add_seen (msg_ts m) st).

Fixpoint handle_messages (self : client) (now : Z) (st : loop_state) (l : list message)
  : outcome :=
  match l with
  | [] => Running st
  | m :: l' =>
      match handle_message self now st m with
      | Returned st' => Returned st'
      | Running st' => handle_messages self now st' l'
      end
  end.

(** The handler [except Exception as e] of the loop, with the sleep
    that ends the iteration. The handler is not guarded itself: what
    [int] raises in it leaves the loop, before any sleep. *)
Definition handle_error (st : loop_state) (e : exn) : exn + loop_state :=
  let error_msg := str_exn e in
  if str_in "rate limit" (lower error_msg) then
    match retry_search error_msg with
    | Some (digits, retry_unit) =>
        match int digits with
        | inl exc => inl exc
        | inr retry_value =>
            let wait_time :=
              if Ascii.eqb retry_unit "m" then retry_value * 60 else retry_value in
            let wait_time := Z.min wait_time 5 in
            inr (sleep wait_time st)
        end
    | None =>
        let st := set_check_interval 10 (sleep 5 st) in
        inr (sleep (check_interval st) st)
    end
  else inr (sleep (check_interval st) st).

(** One iteration of [while datetime.now() < timeout_time]. *)
Definition poll_once (self : client) (st : loop_state) (p : poll) : iteration :=
  let st := emit EvFetch st in
  match fetched p with
  | FetchContent c =>
      match handle_messages self (clock p) st (message_list c) with
      | Returned st' => Normal (Returned st')
      | Running st' => Normal (Running (sleep (check_interval st') st'))
      end
  | FetchNoContent => Normal (Running (sleep (check_interval st) st))
  | FetchRaise e =>
      match handle_error st e with
      | inl exc => Escaped exc st
      | inr st' => Normal (Running st')
      end
  end.

(** The loop runs once for each element of [polls], the fetches made
    before the deadline; when they are used up the deadline has
    passed and the request times out. The result is the exception that
    left the loop, if one did, and the state the loop ended in. *)
Fixpoint wait_run (self : client) (st : loop_state) (polls : list poll)
  : option exn * loop_state :=
  match polls with
  | [] => (None, set_request (set_status TIMEOUT (request st)) st)
  | p :: polls' =>
      match poll_once self st p with
      | Normal (Returned st') => (None, st')
      | Normal (Running st') => wait_run self st' polls'
      | Escaped exc st' => (Some exc, st')
      end
  end.

(** The state the loop ends in: on its return, at the deadline, or when
    an exception leaves it. *)
Definition wait_loop (self : client) (st : loop_state) (polls : list poll) : loop_state :=
  snd (wait_run self st polls).

Definition initial_state (request : ApprovalRequest) : loop_state :=
  {| seen_message_timestamps := ∅; request := request; check_interval := 3; trace := [] |}.

Definition _wait_for_response (self : client) (request : ApprovalRequest)
           (polls : list poll) : exn + ApprovalRequest :=
  match wait_run self (initial_state request) polls with
  | (Some exc, _) => inl exc
  | (None, st) => inr (SlackApproval.request st)
  end.

(** The channel session of one [request_approval] call: what each of
    its steps raised, if anything, and what the clock showed.
    [initialize] stands for everything up to and including
    [session.initialize()]: the server parameters, the two context
    managers and the handshake. [list_tools] stands for the second
    listing and the reading of the tools' names. *)
Record Session := {
  uuid8 : string;                 (** [str(uuid.uuid4())[:8]] *)
  created : Z;                    (** [datetime.now()] at creation *)
  initialize : option exn;        (** what opening the session raised *)
  bot_tools : option exn;         (** [list_tools] in [_get_bot_info] *)
  list_tools : option exn;        (** the second [list_tools] *)
  sent : Z;                       (** [datetime.now()] before posting *)
  add_message : nat -> option exn;(** what the k-th post raised *)
  polls : list poll
}.

Definition _get_bot_info (s : Session) : option string :=
  match bot_tools s with
  | None => None
  | Some _ => None
  end.

(** The four posting attempts, [None] when one of them succeeds. *)
Definition post_prompt (s : Session) : option exn :=
  match add_message s 0 with
  | None => None
  | Some _block_error =>
      match add_message s 1 with
      | None => None
      | Some e =>
          match add_message s 2 with
          | None => None
          | Some e2 =>
              match add_message s 3 with
              | None => None
              | Some e3 =>
                  Some (Exception ("All attempts failed: " +:+ str_exn e +:+ ", " +:+
                                   str_exn e2 +:+ ", " +:+ str_exn e3))
              end
          end
      end
  end.

Definition request_approval (self : client) (s : Session)
           (operation : FileAgent.FileOperation) (context : string)
  : (exn + ApprovalRequest) * client :=
  let request := new_request (uuid8 s) operation (created s) context in
  match initialize s with
  | Some e => (inl e, self)
  | None =>
      let self := {| channel := channel self; timeout_minutes := timeout_minutes self;
                     bot_user_id := _get_bot_info s;
                     message_sent_timestamp := message_sent_timestamp self |} in
      match list_tools s with
      | Some e => (inl e, self)
      | None =>
          let self := {| channel := channel self; timeout_minutes := timeout_minutes self;
                         bot_user_id := bot_user_id self;
                         message_sent_timestamp := Some (sent s) |} in
          match post_prompt s with
          | Some e => (inl e, self)
          | None => (_wait_for_response self request (polls s), self)
          end
      end
  end.

End Client.

(** *** What can happen to a request, and what a trace shows *)

(** The two writes the program makes to a request after its creation:
    a resolution step and the timeout. *)
Inductive request_op :=
| OpProcess (now : Z) (m : message)
| OpTimeout.

Definition apply_op (r : ApprovalRequest) (o : request_op) : ApprovalRequest :=
  match o with
  | OpProcess now m => _process_response now m r
  | OpTimeout => set_status TIMEOUT r
  end.

Definition is_process (o : request_op) : bool :=
  match o with
  | OpProcess _ _ => true
  | OpTimeout => false
  end.

(** a resolution step that changed the status *)
Definition is_transition (e : event) : bool :=
  match e with
  | EvProcess _ before after => negb (bool_decide (before = after))
  | _ => false
  end.

Definition transitions (t : list event) : nat := length (List.filter is_transition t).

(** the identifier of a message handed to [_process_response] *)
Definition processed_id (e : event) : option string :=
  match e with
  | EvProcess m _ _ => if truthy (msg_ts m) then Some (msg_ts m) else None
  | _ => None
  end.

Definition processed_ids (t : list event) : list string := omap processed_id t.

Definition is_fetch (e : event) : bool :=
  match e with
  | EvFetch => true
  | _ => false
  end.

Definition fetches (t : list event) : nat := length (List.filter is_fetch t).

Definition pending_before (e : event) : Prop :=
  match e with
  | EvProcess _ before _ => before = PENDING
  | _ => True
  end.

Section Invariant.

Variable fromtimestamp : string -> option Z.
Variable self : client.

(** The two ways one message of the list is handled: it is passed over,
    or it is handed to [_process_response]. *)
Inductive handled (now : Z) (st : loop_state) (m : message) : outcome -> Prop :=
| handled_skip st' :
    request st' = request st -> trace st' = trace st ->
    check_interval st' = check_interval st ->
    seen_message_timestamps st ⊆ seen_message_timestamps st' ->
    (truthy (msg_ts m) = true -> msg_ts m ∈ seen_message_timestamps st') ->
    handled now st m (Running st')
| handled_process st' :
    _is_bot_message fromtimestamp self m = false ->
    _is_approval_response m (id (request st)) = true ->
    (truthy (msg_ts m) = true -> msg_ts m ∉ seen_message_timestamps st) ->
    request st' = _process_response now m (request st) ->
    trace st' = trace st ++ [EvProcess m (status (request st)) (status (request st'))] ->
    check_interval st' = check_interval st ->
    seen_message_timestamps st ⊆ seen_message_timestamps st' ->
    (truthy (msg_ts m) = true -> msg_ts m ∈ seen_message_timestamps st') ->
    handled now st m (if bool_decide (status (request st') ≠ PENDING)
                      then Returned st' else Running st').

End Invariant.

(** What holds of the loop's state at any time. *)
Record good (st : loop_state) : Prop := {
  good_nodup : NoDup (processed_ids (trace st));
  good_seen : forall t, t ∈ processed_ids (trace st) -> t ∈ seen_message_timestamps st;
  good_before : Forall pending_before (trace st);
  good_once : (transitions (trace st) <= 1)%nat
}.

(** And while the loop has not returned. *)
Record running (st : loop_state) : Prop := {
  running_good : good st;
  running_pending : status (request st) = PENDING;
  running_none : transitions (trace st) = 0%nat
}.

(** *** For the further properties *)

(** The fields no operation writes after the creation of a request. *)
Definition same_identity (r r' : ApprovalRequest) : Prop :=
  id r' = id r /\ operation r' = operation r /\
  timestamp r' = timestamp r /\ context r' = context r.

(** The text [_process_response] reads from a message. *)
Definition response_text (m : message) : string :=
  match m with
  | MDict d => default ""%string (Msg.text d)
  | MStr s => s
  | MObj _ repr => repr
  end.

(** The responder [_process_response] records for a message. *)
Definition responder (m : message) : string :=
  match m with
  | MDict d =>
      match Msg.username d with
      | Some u => u
      | None => default "unknown"%string (Msg.user d)
      end
  | _ => "unknown"%string
  end.

(** [s.isascii()] *)
Definition isascii (s : string) : bool :=
  forallb (fun c => (nat_of_ascii c <? 128)%nat) (list_ascii_of_string s).

(** The error names a rate limit and holds a retry hint of more digits
    than [int] accepts. *)
Definition overlong_hint (e : exn) : bool :=
  str_in "rate limit" (lower (str_exn e)) &&
  match retry_search (str_exn e) with
  | Some (digits, _) => (int_max_str_digits <? String.length digits)%nat
  | None => false
  end.

(** The exception [exc] left the loop at one of [polls]: the fetch
    raised a rate-limit error with an overlong hint, and [exc] is what
    [int] raised on the hint. *)
Definition escaped_from (polls : list poll) (exc : exn) : Prop :=
  exists p e digits u,
    p ∈ polls /\ fetched p = FetchRaise e /\
    str_in "rate limit" (lower (str_exn e)) = true /\
    retry_search (str_exn e) = Some (digits, u) /\
    (int_max_str_digits < String.length digits)%nat /\
    exc = digit_limit_error (String.length digits).

(** A message the loop passes over: it is taken for the bot's own, or
    it is no candidate response for [approval_id]. *)
Definition passed_over (fromtimestamp : string -> option Z) (self : client)
           (approval_id : string) (m : message) : Prop :=
  _is_bot_message fromtimestamp self m = true \/
  _is_approval_response m approval_id = false.

(** The messages the loop goes through after the fetch [p]. *)
Definition poll_messages (DictReader : string -> list (gmap string string))
           (json_loads : string -> option payload) (p : poll) : list message :=
  match fetched p with
  | FetchContent c => message_list DictReader json_loads c
  | _ => []
  end.

(** The [ts] values of the messages the loop goes through in [polls]. *)
Definition identifiers (DictReader : string -> list (gmap string string))
           (json_loads : string -> option payload) (polls : list poll) : list string :=
  map msg_ts (flat_map (poll_messages DictReader json_loads) polls).

(** No message of the poll is a candidate response for [approval_id],
    and an error it raised is an ASCII text the handler answers with a
    sleep. *)
Definition quiet (fromtimestamp : string -> option Z)
           (DictReader : string -> list (gmap string string))
           (json_loads : string -> option payload)
           (self : client) (approval_id : string) (p : poll) : Prop :=
  match fetched p with
  | FetchContent c =>
      Forall (passed_over fromtimestamp self approval_id)
             (message_list DictReader json_loads c)
  | FetchNoContent => True
  | FetchRaise e => isascii (str_exn e) = true /\ overlong_hint e = false
  end.

(** A sleep of the loop lasts between 0 and 10 seconds. *)
Definition sleep_bounded (e : event) : Prop :=
  match e with
  | EvSleep n => 0 <= n <= 10
  | _ => True
  end.
(** What every step of the loop keeps, and what a return shows *)
Definition kept_by (r0 : ApprovalRequest) (o : outcome) : Prop :=
  match o with
  | Running st => same_identity r0 (request st)
  | Returned st => same_identity r0 (request st) /\ status (request st) <> PENDING
  end.

Definition all_digits (s : string) : Prop :=
  Forall (fun c => is_digit c = true) (list_ascii_of_string s).

(** What the pace of the loop keeps. *)
Definition paced (st : loop_state) : Prop :=
  (check_interval st = 3 \/ check_interval st = 10) /\ Forall sleep_bounded (trace st).

(** the same message under another [user] key *)
Definition with_user (u : option string) (d : Msg.dict) : Msg.dict :=
  {| Msg.user := u; Msg.username := Msg.username d; Msg.text := Msg.text d;
     Msg.ts := Msg.ts d; Msg.channel := Msg.channel d; Msg.value := Msg.value d;
     Msg.attachments := Msg.attachments d |}.

End SlackApproval.

(** ** orchestrator.py *)

Module Orchestrator.
Import PyStr Py.
Import FileAgent (FileOperation, OperationType, agent_call).
Import SlackApproval (ApprovalStatus, ApprovalRequest).

Record AuditLogEntry := {
  timestamp : Z;
  operation : FileOperation;
  required_approval : bool;
  approval_status : option ApprovalStatus;
  approved_by : option string;
  execution_result : option string;
  error : option string
}.

(** The dictionary [process_request] returns; [None] for an absent key. *)
Record response := {
  success : bool;
  result : option pyobj;
  r_error : option string;
  r_required_approval : bool;
  r_approval_status : option string
}.

Inductive call :=
| AgentCall (c : agent_call)
| ApprovalCall (operation : FileOperation) (context : string).

(** The orchestrator's [audit_log], the external calls made so far,
    and the local variable [log_entry] of [process_request]. *)
Record store := {
  audit_log : list AuditLogEntry;
  calls : list call;
  log_entry : option AuditLogEntry
}.

Record Env := {
  agent_env : FileAgent.Env;
  (** [approval_system.request_approval] *)
  approval : FileOperation -> string -> exn + ApprovalRequest;
  now : Z;
  isoformat : Z -> string
}.

Record orchestrator := { agent : FileAgent.agent }.

Definition init (env : Env) (working_directory : string) : orchestrator :=
  {| agent := FileAgent.init (agent_env env) working_directory |}.

Definition lift_agent {A} (c : M (list agent_call) A) : M store A :=
  zoom (fun _ => []) 
       (fun t s => {| audit_log := audit_log s; calls := calls s ++ map AgentCall t;
                      log_entry := log_entry s |})
       c.

Definition request_approval (env : Env) (operation : FileOperation) (context : string)
  : M store ApprovalRequest :=
  modify (fun s => {| audit_log := audit_log s;
                      calls := calls s ++ [ApprovalCall operation context];
                      log_entry := log_entry s |}) ;;
  of_sum (approval env operation context).

Definition set_log_entry (l : option AuditLogEntry) : M store unit :=
  modify (fun s => {| audit_log := audit_log s; calls := calls s; log_entry := l |}).

Definition update_log_entry (f : AuditLogEntry -> AuditLogEntry) : M store unit :=
  modify (fun s => {| audit_log := audit_log s; calls := calls s;
                      log_entry := f <$> log_entry s |}).

Definition get_log_entry : M store (option AuditLogEntry) :=
  fun s => (inr (log_entry s), s).

(** [self.audit_log.append(log_entry)] *)
Definition append_log_entry : M store unit :=
  modify (fun s => {| audit_log := audit_log s ++ option_list (log_entry s);
                      calls := calls s; log_entry := log_entry s |}).

Definition with_approval (st : ApprovalStatus) (by_ : option string) (l : AuditLogEntry)
  : AuditLogEntry :=
  {| timestamp := timestamp l; operation := operation l;
     required_approval := required_approval l;
     approval_status := Some st; approved_by := by_;
     execution_result := execution_result l; error := error l |}.

Definition with_result (r : string) (l : AuditLogEntry) : AuditLogEntry :=
  {| timestamp := timestamp l; operation := operation l;
     required_approval := required_approval l;
     approval_status := approval_status l; approved_by := approved_by l;
     execution_result := Some r; error := error l |}.

Definition with_error (e : string) (l : AuditLogEntry) : AuditLogEntry :=
  {| timestamp := timestamp l; operation := operation l;
     required_approval := required_approval l;
     approval_status := approval_status l; approved_by := approved_by l;
     execution_result := execution_result l; error := Some e |}.

Definition quote : string := String (ascii_of_nat 34) EmptyString.

Definition _create_approval_context (operation : FileOperation) (user_input : string)
  : string :=
  let v := FileAgent.type_value (FileAgent.type operation) in
  ("User requested: " +:+ quote +:+ user_input +:+ quote) +:+
  (nl +:+ "This translates to: " +:+ v +:+ " operation") +:+
  (nl +:+ "Target path: " +:+ FileAgent.path operation) +:+
  (match FileAgent.destination operation with
   | Some d => if truthy d then nl +:+ "Destination: " +:+ d else ""
   | None => ""
   end) +:+
  (if String.eqb v "delete"
   then nl +:+ nl +:+ "⚠️ **Warning**: This will permanently delete the file/directory"
   else if String.eqb v "move"
   then nl +:+ nl +:+ "⚠️ **Warning**: This will move the file to a new location"
   else if String.eqb v "write"
   then nl +:+ nl +:+ "⚠️ **Warning**: This will overwrite any existing content"
   else "").

Definition _execute_with_fallback (env : Env) (self : orchestrator)
           (operation : FileOperation) : M store pyobj :=
  try_except
    (lift_agent (FileAgent.execute_operation (agent_env env) (agent self) operation))
    (fun e =>
       if String.eqb (FileAgent.type_value (FileAgent.type operation)) "delete" then
         let trash_path :=
           "trash/" +:+ isoformat env (now env) +:+ "_" +:+ FileAgent.path operation in
         try_except
           (lift_agent (FileAgent._move_file (agent self) (FileAgent.path operation)
                                             trash_path) ;;
            ret (PyStr ("File moved to trash: " +:+ trash_path)))
           (fun _ => raise e)
       else raise e).

Definition process_request (env : Env) (self : orchestrator) (user_input : string)
  : M store response :=
  set_log_entry None ;;
  try_except
    (do operation <- lift_agent (FileAgent.parse_intent (agent_env env) user_input);
     set_log_entry
       (Some {| timestamp := now env; operation := operation;
                required_approval := FileAgent.is_high_risk_operation (agent self) operation;
                approval_status := None; approved_by := None;
                execution_result := None; error := None |}) ;;
     if FileAgent.is_high_risk_operation (agent self) operation then
       let context := _create_approval_context operation user_input in
       try_except
         (do approval <- request_approval env operation context;
          update_log_entry (with_approval (SlackApproval.status approval)
                                          (SlackApproval.responded_by approval)) ;;
          match SlackApproval.status approval with
          | SlackApproval.APPROVED =>
              do result <- _execute_with_fallback env self operation;
              update_log_entry (with_result "Success") ;;
              append_log_entry ;;
              ret {| success := true; result := Some result; r_error := None;
                     r_required_approval := true; r_approval_status := Some "approved" |}
          | SlackApproval.DENIED =>
              update_log_entry (with_result "Denied") ;;
              append_log_entry ;;
              ret {| success := false; result := None;
                     r_error := Some "Operation denied by human reviewer";
                     r_required_approval := true; r_approval_status := Some "denied" |}
          | _ =>
              update_log_entry (with_result "Timeout") ;;
              append_log_entry ;;
              ret {| success := false; result := None;
                     r_error := Some "Approval request timed out";
                     r_required_approval := true; r_approval_status := Some "timeout" |}
          end)
         (fun approval_error =>
            update_log_entry (with_error ("Approval system error: " +:+
                                          str_exn approval_error)) ;;
            append_log_entry ;;
            ret {| success := false; result := None;
                   r_error := Some ("Failed to get approval: " +:+ str_exn approval_error);
                   r_required_approval := true; r_approval_status := Some "error" |})
     else
       do result <- _execute_with_fallback env self operation;
       update_log_entry (with_result "Success") ;;
       append_log_entry ;;
       ret {| success := true; result := Some result; r_error := None;
              r_required_approval := false; r_approval_status := None |})
    (fun e =>
       do entry <- get_log_entry;
       match entry with
       | Some _ => update_log_entry (with_error (str_exn e)) ;; append_log_entry
       | None => ret tt
       end ;;
       ret {| success := false; result := None; r_error := Some (str_exn e);
              r_required_approval :=
                match entry with
                | Some l => required_approval l
                | None => false
                end;
              r_approval_status := None |}).

(** The target path of [operation] does not resolve inside the working
    directory. *)
Definition outside (env : Env) (self : orchestrator) (operation : FileOperation) : Prop :=
  FileAgent._is_path_allowed
    (agent self)
    (FileAgent._get_full_path (agent_env env) (agent self) (FileAgent.path operation))
  ≠ Some true.

(** One dictionary of the list [get_audit_log] returns. *)
Record audit_record := {
  a_timestamp : string;
  a_operation : string;
  a_path : string;
  a_required_approval : bool;
  a_approval_status : option string;
  a_approved_by : option string;
  a_result : option string;
  a_error : option string
}.

Definition render (env : Env) (log : AuditLogEntry) : audit_record :=
  {| a_timestamp := isoformat env (timestamp log);
     a_operation := FileAgent.type_value (FileAgent.type (operation log));
     a_path := FileAgent.path (operation log);
     a_required_approval := required_approval log;
     a_approval_status := SlackApproval.status_value <$> approval_status log;
     a_approved_by := approved_by log;
     a_result := execution_result log;
     a_error := error log |}.

(** [get_audit_log(start_date, end_date)] on the orchestrator's log;
    a datetime is always true, so [if start_date:] tests for [None]. *)
Definition get_audit_log (env : Env) (audit_log : list AuditLogEntry)
           (start_date end_date : option Z) : list audit_record :=
  let filtered_logs := audit_log in
  let filtered_logs :=
    match start_date with
    | Some start_date => List.filter (fun log => start_date <=? timestamp log) filtered_logs
    | None => filtered_logs
    end in
  let filtered_logs :=
    match end_date with
    | Some end_date => List.filter (fun log => timestamp log <=? end_date) filtered_logs
    | None => filtered_logs
    end in
  map (render env) filtered_logs.

(** What the fields of an audit entry say together. *)
Definition consistent (l : AuditLogEntry) : Prop :=
  (is_Some (execution_result l) <-> error l = None) /\
  (required_approval l = false -> approval_status l = None /\ approved_by l = None) /\
  (required_approval l = true -> execution_result l = Some "Success"%string ->
   approval_status l = Some SlackApproval.APPROVED) /\
  (execution_result l = Some "Denied"%string -> approval_status l = Some SlackApproval.DENIED).

End Orchestrator.

(** ** main.py *)

Module Main.
Import Py Orchestrator.

Section Report.

(** [str(obj)], as an f-string formats a result *)
Variable str : pyobj -> string.

(** What [demonstrate_agent] prints for one result, [None] for the
    [KeyError] of a subscript on an absent key. *)
Definition report (r : response) : option (list string) :=
  if success r then
    match (if r_required_approval r
           then (fun st => ["   Approval Status: " +:+ st]) <$> r_approval_status r
           else Some []) with
    | None => None
    | Some status_line =>
        match result r with
        | None => None
        | Some shown =>
            Some ([nl +:+ "✅ Operation completed successfully"] ++ status_line ++
                  ["   Result: " +:+ str shown])
        end
    end
  else
    match r_error r with
    | None => None
    | Some e =>
        Some (["❌ Operation failed"%string; "   Error: " +:+ e] ++
              (if r_required_approval r
               then ["   Approval Status: " +:+ default "N/A"%string (r_approval_status r)]
               else []))
    end.

End Report.

(** The loop [for test_input in test_cases] of [demonstrate_agent]: the
    responses in order, or the exception that ended it. *)
Fixpoint process_all (env : Env) (self : orchestrator) (test_cases : list string)
  : M store (list response) :=
  match test_cases with
  | [] => ret []
  | test_input :: rest =>
      do r <- process_request env self test_input;
      do rs <- process_all env self rest;
      ret (r :: rs)
  end.

(** the intent parser gave an operation for the input *)
Definition parsed (env : Env) (user_input : string) : bool :=
  match FileAgent.intent (agent_env env) user_input with
  | inr _ => true
  | inl _ => false
  end.

End Main.

(** ** Worlds for the examples *)

Module Scenario.
Import Py FileAgent Orchestrator.

(** A world in which the intent parser, the code generator, the
    interpreter and the approval system answer as given. *)
Definition world (parsed : exn + FileOperation) (reply : exn + string)
           (ran : exn + pyobj) (approved : exn + SlackApproval.ApprovalRequest) : Orchestrator.Env :=
  {| agent_env := {| cwd := "/home/user"; intent := fun _ => parsed;
                     completion := fun _ => reply; exec := fun _ => ran |};
     approval := fun _ _ => approved;
     now := 1700000000000000;
     isoformat := fun _ => "2023-11-14T22:13:20" |}.

Definition empty_store : store := {| audit_log := []; calls := []; log_entry := None |}.

Definition delete_backup : FileOperation :=
  {| type := DELETE; path := "old-backup.zip"; destination := None; content := None |}.

Definition delete_outside : FileOperation :=
  {| type := DELETE; path := "../etc/passwd"; destination := None; content := None |}.

Definition list_outside : FileOperation :=
  {| type := LIST; path := "../etc"; destination := None; content := None |}.

Definition answered (st : SlackApproval.ApprovalStatus) (op : FileOperation)
  : SlackApproval.ApprovalRequest :=
  {| SlackApproval.id := "ab12cd34"; SlackApproval.operation := op;
     SlackApproval.timestamp := 1700000000000000; SlackApproval.status := st;
     SlackApproval.context := ""; SlackApproval.responded_by := Some "alice";
     SlackApproval.response_time := Some 1700000005000000 |}.

Definition unreachable : exn + SlackApproval.ApprovalRequest :=
  inl (Exception "approval system not reachable").

(** the intent parser rejects the input *)
Definition parse_error_world : Orchestrator.Env :=
  world (inl (ValueError "'explode' is not a valid OperationType"))
        (inr ""%string) (inr PyNone) unreachable.

(** a listing of the parent of the working directory *)
Definition list_outside_world : Orchestrator.Env :=
  world (inr list_outside) (inr ""%string) (inr PyNone) unreachable.

(** a deletion outside the working directory, which the reviewer denies *)
Definition delete_outside_world : Orchestrator.Env :=
  world (inr delete_outside) (inr ""%string) (inr PyNone)
        (inr (answered SlackApproval.DENIED delete_outside)).

(** an approved deletion whose generated code fails *)
Definition failing_delete_world : Orchestrator.Env :=
  world (inr delete_backup) (inr "os.remove(p)"%string)
        (inl (Exception "[Errno 13] Permission denied"))
        (inr (answered SlackApproval.APPROVED delete_backup)).

(** *** The approval channel *)

Definition t0 : Z := 1700000000000000.

(** Message timestamps of the examples, as [datetime.fromtimestamp]
    reads them. *)
Definition fromtimestamp (s : string) : option Z :=
  if String.eqb s "1700000030.000050" then Some 1700000030000050
  else if String.eqb s "1700000060.000100" then Some 1700000060000100
  else if String.eqb s "1700000090.000200" then Some 1700000090000200
  else None.

Definition DictReader (s : string) : list (gmap string string) := [].

Definition json_loads (s : string) : option SlackApproval.payload := None.

(** the client after the prompt was posted, one second after [t0] *)
Definition client : SlackApproval.client :=
  {| SlackApproval.channel := "C09678WRA30"; SlackApproval.timeout_minutes := 5;
     SlackApproval.bot_user_id := None;
     SlackApproval.message_sent_timestamp := Some (t0 + 1000000) |}.

Definition pending : SlackApproval.ApprovalRequest :=
  SlackApproval.new_request "ab12cd34" delete_backup t0 "Delete old-backup.zip".

(** a reply typed by a reviewer *)
Definition reply (who when_ text : string) : SlackApproval.message :=
  SlackApproval.MDict
    {| SlackApproval.Msg.user := Some "U024BE7LH"; SlackApproval.Msg.username := Some who;
       SlackApproval.Msg.text := Some text; SlackApproval.Msg.ts := Some when_;
       SlackApproval.Msg.channel := Some "C09678WRA30";
       SlackApproval.Msg.value := None; SlackApproval.Msg.attachments := None |}.

Definition approve_reply : SlackApproval.message :=
  reply "alice" "1700000060.000100" "approve ab12cd34".

Definition deny_reply : SlackApproval.message :=
  reply "carol" "1700000090.000200" "deny ab12cd34".

(** the prompt itself, read back from the channel *)
Definition prompt_echo : SlackApproval.Msg.dict :=
  {| SlackApproval.Msg.user := Some "U024BE7LH"; SlackApproval.Msg.username := Some "alice";
     SlackApproval.Msg.text :=
       Some "Agent Approval Request: to approve, reply: approve ab12cd34";
     SlackApproval.Msg.ts := Some "1700000060.000100";
     SlackApproval.Msg.channel := Some "C09678WRA30";
     SlackApproval.Msg.value := None; SlackApproval.Msg.attachments := None |}.

(** the same text as a bare string in the message list *)
Definition prompt_text : SlackApproval.message :=
  SlackApproval.MStr "Agent Approval Request: to approve, reply: approve ab12cd34".

(** a click on the Approve button: the action value and no text *)
Definition button_click : SlackApproval.Msg.dict :=
  {| SlackApproval.Msg.user := Some "U024BE7LH"; SlackApproval.Msg.username := Some "alice";
     SlackApproval.Msg.text := Some ""; SlackApproval.Msg.ts := Some "1700000030.000050";
     SlackApproval.Msg.channel := Some "C09678WRA30";
     SlackApproval.Msg.value := Some "approve_ab12cd34";
     SlackApproval.Msg.attachments := None |}.

Definition fetch_of (l : list SlackApproval.message) (clock : Z) : SlackApproval.poll :=
  {| SlackApproval.fetched := SlackApproval.FetchContent (SlackApproval.PList l);
     SlackApproval.clock := clock |}.

Definition rate_limited : exn := Exception "Rate limit exceeded, retry after 30s".

(** rate-limit errors with hints of three seconds and of two minutes *)
Definition short_hint : exn := Exception "Rate limit exceeded, retry after 3s".

Definition minutes_hint : exn := Exception "429 Too Many Requests (rate limit): retry after 2m".

(** an error that names no rate limit *)
Definition broken_pipe : exn := Exception "[Errno 32] Broken pipe".

Definition nines (n : nat) : string := string_of_list_ascii (replicate n "9"%char).

(** a rate-limit error whose retry hint has 4301 digits *)
Definition long_hint : exn :=
  Exception ("Rate limit exceeded, retry after " +:+ nines 4301 +:+ "s").

(** a session in which the prompt is posted at once, the first fetch is
    answered with [long_hint] and the second would show alice's
    approval *)
Definition long_hint_session : SlackApproval.Session :=
  {| SlackApproval.uuid8 := "ab12cd34"; SlackApproval.created := t0;
     SlackApproval.initialize := None; SlackApproval.bot_tools := None;
     SlackApproval.list_tools := None; SlackApproval.sent := t0 + 1000000;
     SlackApproval.add_message := fun _ => None;
     SlackApproval.polls :=
       [{| SlackApproval.fetched := SlackApproval.FetchRaise long_hint;
           SlackApproval.clock := t0 + 3000000 |};
        fetch_of [approve_reply] (t0 + 61000000)] |}.

(** a session in which the rich prompt is posted at once and the second
    fetch shows carol's denial *)
Definition denied_session : SlackApproval.Session :=
  {| SlackApproval.uuid8 := "ab12cd34"; SlackApproval.created := t0;
     SlackApproval.initialize := None; SlackApproval.bot_tools := None;
     SlackApproval.list_tools := None; SlackApproval.sent := t0 + 1000000;
     SlackApproval.add_message := fun _ => None;
     SlackApproval.polls := [fetch_of [] (t0 + 3000000);
                             fetch_of [deny_reply] (t0 + 91000000)] |}.

(** the deletion of the old backup, with that channel as approval system *)
Definition denied_delete_world : Orchestrator.Env :=
  {| agent_env := {| cwd := "/home/user"; intent := fun _ => inr delete_backup;
                     completion := fun _ => inr "os.remove(p)"%string;
                     exec := fun _ => inr PyNone |};
     approval := fun operation context =>
                   fst (SlackApproval.request_approval
                          fromtimestamp DictReader json_loads
                          (SlackApproval.init "C09678WRA30" 5) denied_session
                          operation context);
     now := t0;
     isoformat := fun _ => "2023-11-14T22:13:20" |}.

(** the same deletion when the first fetch is answered with [long_hint] *)
Definition long_hint_world : Orchestrator.Env :=
  {| agent_env := {| cwd := "/home/user"; intent := fun _ => inr delete_backup;
                     completion := fun _ => inr "os.remove(p)"%string;
                     exec := fun _ => inr PyNone |};
     approval := fun operation context =>
                   fst (SlackApproval.request_approval
                          fromtimestamp DictReader json_loads
                          (SlackApproval.init "C09678WRA30" 5) long_hint_session
                          operation context);
     now := t0;
     isoformat := fun _ => "2023-11-14T22:13:20" |}.

(** *** For the further properties *)

Definition list_here : FileOperation :=
  {| type := LIST; path := "."; destination := None; content := None |}.

(** a listing of the working directory that succeeds *)
Definition list_world : Orchestrator.Env :=
  world (inr list_here) (inr "result = os.listdir(p)"%string) (inr (PyList ["a.txt"%string]))
        unreachable.

Definition write_notes : FileOperation :=
  {| type := WRITE; path := "notes.txt"; destination := None; content := Some "hello"%string |}.

Definition write_report : FileOperation :=
  {| type := WRITE; path := "reports/q1.txt"; destination := None;
     content := Some "figures"%string |}.

(** a reply of the model inside a fenced block *)
Definition fenced_reply : string :=
  "  ```python" +:+ nl +:+ "result = os.listdir(p)" +:+ nl +:+ "```" +:+ nl.

Definition fenced_world : Orchestrator.Env :=
  world (inr list_here) (inr fenced_reply) (inr (PyList ["a.txt"%string])) unreachable.

Definition reply_dict (who when_ text : string) : SlackApproval.Msg.dict :=
  {| SlackApproval.Msg.user := Some "U024BE7LH"; SlackApproval.Msg.username := Some who;
     SlackApproval.Msg.text := Some text; SlackApproval.Msg.ts := Some when_;
     SlackApproval.Msg.channel := Some "C09678WRA30";
     SlackApproval.Msg.value := None; SlackApproval.Msg.attachments := None |}.

(** a question that is no answer to the request *)
Definition chatter : SlackApproval.message :=
  SlackApproval.MDict (reply_dict "bob" "1700000030.000050" "what is this about?").

(** one row of the delimited table, with an empty UserName column *)
Definition csv_row : gmap string string :=
  <["UserID"%string := "U024BE7LH"%string]>
    (<["UserName"%string := ""%string]>
       (<["Text"%string := "approve ab12cd34"%string]>
          (<["Time"%string := "1700000060.000100"%string]>
             (<["Channel"%string := "C09678WRA30"%string]> ∅)))).

Definition csv_reader (s : string) : list (gmap string string) := [csv_row].

Definition csv_message : SlackApproval.message :=
  SlackApproval.MDict
    {| SlackApproval.Msg.user := Some "U024BE7LH"; SlackApproval.Msg.username := Some "";
       SlackApproval.Msg.text := Some "approve ab12cd34";
       SlackApproval.Msg.ts := Some "1700000060.000100";
       SlackApproval.Msg.channel := Some "C09678WRA30";
       SlackApproval.Msg.value := None; SlackApproval.Msg.attachments := None |}.

End Scenario.

(** * Properties *)

Import PyStr Py.

(** ** Paths *)

Example normpath_dotdot : PosixPath.normpath "/ws/../etc/passwd" = "/etc/passwd"%string.
Proof. reflexivity. Qed.

Example normpath_inner : PosixPath.normpath "/ws/./a//b/../c" = "/ws/a/c"%string.
Proof. reflexivity. Qed.

Example commonpath_outside : PosixPath.commonpath "/etc/passwd" "/ws" = Some "/"%string.
Proof. reflexivity. Qed.

Example commonpath_inside : PosixPath.commonpath "/ws/a/c" "/ws" = Some "/ws"%string.
Proof. reflexivity. Qed.

(** ** The retry hint *)

Example retry_search_seconds :
  SlackApproval.retry_search "Rate limit exceeded, retry after 30s" = Some ("30"%string, "s"%char).
Proof. reflexivity. Qed.

Example retry_search_minutes :
  SlackApproval.retry_search "rate limit: retry after 2m" = Some ("2"%string, "m"%char).
Proof. reflexivity. Qed.

Example retry_search_leftmost :
  SlackApproval.retry_search "retry after 12x, retry after 3s" = Some ("3"%string, "s"%char).
Proof. reflexivity. Qed.

Example retry_search_no_unit :
  SlackApproval.retry_search "rate limit: retry after 10 seconds" = None.
Proof. reflexivity. Qed.

Example retry_search_case :
  SlackApproval.retry_search "Rate limit. Retry After 30s" = None.
Proof. reflexivity. Qed.

(** ** The risk classifier *)

Section RiskClassifier.
Import FileAgent.

(** C8. On an agent as its constructor builds it, the classifier
    answers true for DELETE, MOVE and WRITE and false for LIST and
    READ.  It is a total function into [bool]: it reads no store and
    cannot raise. *)
Theorem is_high_risk_operation_spec (env : Env) (working_directory : string)
        (operation : FileOperation) :
  is_high_risk_operation (init env working_directory) operation =
  match type operation with
  | DELETE | MOVE | WRITE => true
  | LIST | READ => false
  end.
Proof.
  unfold is_high_risk_operation, init; simpl.
  destruct (type operation); vm_compute; reflexivity.
Qed.

End RiskClassifier.

(** ** The execution gateway and the request flow *)

Section Gateway.
Import FileAgent Orchestrator.

Lemma lift_agent_move_file {A} (self : orchestrator) (src dst : string)
      (k : M store A) (h : exn -> M store A) (s : store) :
  try_except (lift_agent (_move_file (agent self) src dst) ;; k) h s =
  h (AttributeError "'FileManagementAgent' object has no attribute '_move_file'") s.
Proof.
  unfold try_except, bind, lift_agent, zoom, _move_file, raise; simpl.
  rewrite app_nil_r. destruct s; reflexivity.
Qed.

(** The fallback never changes what the primary execution gave: a
    result is returned as it is, and an error is raised again after
    the lookup of [_move_file] has failed. *)
Lemma execute_with_fallback_primary (env : Env) (self : orchestrator)
      (operation : FileOperation) (s : store) :
  _execute_with_fallback env self operation s =
  lift_agent (execute_operation (agent_env env) (agent self) operation) s.
Proof.
  unfold _execute_with_fallback.
  unfold try_except at 1.
  destruct (lift_agent _ s) as [[e | r] s'] eqn:E; [| reflexivity].
  destruct (String.eqb _ "delete"); [| reflexivity].
  rewrite lift_agent_move_file. reflexivity.
Qed.

(** C7. A Delete whose execution fails in a world where nothing else
    goes wrong: the caller gets the execution error back and no result
    that names a quarantine path, because the fallback calls a method
    the agent does not have. *)
Theorem delete_fallback_reraises :
  fst (_execute_with_fallback Scenario.failing_delete_world
                              (Orchestrator.init Scenario.failing_delete_world "/ws")
                              Scenario.delete_backup Scenario.empty_store) =
  inl (Exception ("Failed to execute AI-generated code: [Errno 13] Permission denied" +:+
                  nl +:+ "Code: os.remove(p)")).
Proof. vm_compute. reflexivity. Qed.

Lemma execute_operation_outside (env : Env) (self : orchestrator)
      (operation : FileOperation) (t : list agent_call) :
  outside env self operation ->
  exists msg, execute_operation (agent_env env) (agent self) operation t
              = (inl (ValueError msg), t).
Proof.
  unfold outside, execute_operation. intros H.
  destruct (_is_path_allowed _ _) as [[|]|]; [congruence | |]; eexists; reflexivity.
Qed.

End Gateway.

Section RequestFlow.
Import FileAgent Orchestrator.

Lemma lift_agent_run {A} (c : M (list agent_call) A) (s : store) :
  lift_agent c s =
  (fst (c []), {| audit_log := audit_log s; calls := calls s ++ map AgentCall (snd (c []));
                  log_entry := log_entry s |}).
Proof. unfold lift_agent, zoom. destruct (c []); reflexivity. Qed.

Ltac run_request :=
  unfold process_request, set_log_entry, parse_intent, log, bind, modify, of_sum,
         try_except, ret;
  rewrite lift_agent_run; simpl.

Ltac run_approval :=
  unfold Orchestrator.request_approval, bind, modify, of_sum, update_log_entry,
         append_log_entry; simpl.

Ltac run_handler :=
  unfold update_log_entry, append_log_entry, get_log_entry, bind, modify; simpl.

(** C1, as the code has it. [process_request] always returns one
    response and never raises.  When the intent parser gave an operation
    it appends exactly one audit entry, for that operation and with its
    risk class; when the parser raised, [log_entry] is still [None] and
    nothing is appended. *)
Theorem process_request_total (env : Env) (self : orchestrator) (user_input : string)
        (s : store) :
  exists r s',
    process_request env self user_input s = (inr r, s') /\
    match intent (agent_env env) user_input with
    | inl _ => audit_log s' = audit_log s
    | inr op =>
        exists entry,
          audit_log s' = audit_log s ++ [entry] /\
          Orchestrator.operation entry = op /\
          required_approval entry = is_high_risk_operation (agent self) op
    end.
Proof.
  run_request.
  destruct (intent (agent_env env) user_input) as [e | op] eqn:Hi; simpl.
  - eexists _, _; split; reflexivity.
  - destruct (is_high_risk_operation (agent self) op) eqn:Hr; simpl.
    + run_approval.
      destruct (approval env op _) as [e | a]; simpl.
      * eexists _, _; split; [reflexivity |].
        eexists; split; [reflexivity |]. simpl. auto.
      * destruct (SlackApproval.status a); simpl.
        all: try (eexists _, _; split; [reflexivity |];
                  eexists; split; [reflexivity |]; simpl; auto).
        rewrite execute_with_fallback_primary, lift_agent_run; simpl.
        destruct (fst _); simpl.
        all: eexists _, _; split; [reflexivity |];
          eexists; split; [reflexivity |]; simpl; auto.
    + rewrite execute_with_fallback_primary, lift_agent_run; simpl.
      run_handler.
      destruct (fst _); simpl.
      all: eexists _, _; split; [reflexivity |];
        eexists; split; [reflexivity |]; simpl; auto.
Qed.

(** C1 fails when the intent parser raises: a response is returned, and
    the audit log is as empty as before. *)
Lemma parse_failure_leaves_no_audit_entry :
  (exists r, fst (process_request Scenario.parse_error_world
                                  (Orchestrator.init Scenario.parse_error_world "/ws")
                                  "explode the disk" Scenario.empty_store) = inr r) /\
  audit_log (snd (process_request Scenario.parse_error_world
                                  (Orchestrator.init Scenario.parse_error_world "/ws")
                                  "explode the disk" Scenario.empty_store)) = [].
Proof. vm_compute. split; [eexists; reflexivity | reflexivity]. Qed.

(** C5, as the code has it. For an operation whose path resolves
    outside the working directory the request fails and neither the code
    generator nor the interpreter is called.  A low-risk operation makes
    no approval request; a high-risk one makes exactly one, because the
    path is only checked inside [execute_operation]. *)
Theorem outside_refused (env : Env) (self : orchestrator) (user_input : string)
        (operation : FileOperation) (s : store) :
  intent (agent_env env) user_input = inr operation ->
  outside env self operation ->
  exists r s',
    process_request env self user_input s = (inr r, s') /\
    success r = false /\
    calls s' = calls s ++
               AgentCall (CallIntent user_input) ::
               (if is_high_risk_operation (agent self) operation
                then [ApprovalCall operation (_create_approval_context operation user_input)]
                else []).
Proof.
  intros Hi Ho.
  destruct (execute_operation_outside env self operation [] Ho) as [msg Hx].
  run_request. rewrite Hi. simpl.
  destruct (is_high_risk_operation (agent self) operation) eqn:Hr; simpl.
  - run_approval.
    destruct (approval env operation _) as [e | a]; simpl.
    + eexists _, _; split; [reflexivity |]. split; [reflexivity |]. simpl.
      rewrite <- app_assoc. reflexivity.
    + destruct (SlackApproval.status a); simpl.
      all: try (eexists _, _; split; [reflexivity |]; split; [reflexivity |]; simpl;
                rewrite <- app_assoc; reflexivity).
      rewrite execute_with_fallback_primary, lift_agent_run, Hx; simpl.
      eexists _, _; split; [reflexivity |]; split; [reflexivity |]; simpl.
      rewrite app_nil_r, <- app_assoc. reflexivity.
  - rewrite execute_with_fallback_primary, lift_agent_run, Hx; simpl.
    run_handler.
    eexists _, _; split; [reflexivity |]; split; [reflexivity |]; simpl.
    rewrite app_nil_r. reflexivity.
Qed.

Lemma outside_refused_witness :
  exists r s',
    process_request Scenario.list_outside_world
                    (Orchestrator.init Scenario.list_outside_world "/ws")
                    "list the parent" Scenario.empty_store
    = (inr r, s') /\
    success r = false /\
    calls s' = [AgentCall (CallIntent "list the parent")].
Proof.
  apply (outside_refused Scenario.list_outside_world
                         (Orchestrator.init Scenario.list_outside_world "/ws")
                         "list the parent" Scenario.list_outside Scenario.empty_store).
  - reflexivity.
  - vm_compute. discriminate.
Defined.

(** C5 fails for a high-risk operation: the deletion of
    [../etc/passwd] from the working directory [/ws] resolves to
    [/etc/passwd], outside of it, and the approval system is called. *)
Lemma approval_requested_for_outside_path :
  outside Scenario.delete_outside_world
          (Orchestrator.init Scenario.delete_outside_world "/ws")
          Scenario.delete_outside /\
  _get_full_path (agent_env Scenario.delete_outside_world)
                 (agent (Orchestrator.init Scenario.delete_outside_world "/ws"))
                 "../etc/passwd" = "/etc/passwd"%string /\
  calls (snd (process_request Scenario.delete_outside_world
                              (Orchestrator.init Scenario.delete_outside_world "/ws")
                              "delete ../etc/passwd" Scenario.empty_store)) =
  [AgentCall (CallIntent "delete ../etc/passwd");
   ApprovalCall Scenario.delete_outside
                (_create_approval_context Scenario.delete_outside "delete ../etc/passwd")].
Proof.
  split; [vm_compute; discriminate |]. split; vm_compute; reflexivity.
Qed.

(** The denial scenario, end to end: the reviewer's reply reaches the
    caller as a failure and the audit log as one entry. *)
Example denied_end_to_end :
  fst (process_request Scenario.denied_delete_world
                       (Orchestrator.init Scenario.denied_delete_world "/ws")
                       "Delete the old-backup.zip file" Scenario.empty_store)
  = inr {| success := false; result := None;
           r_error := Some "Operation denied by human reviewer"%string;
           r_required_approval := true; r_approval_status := Some "denied"%string |} /\
  map (fun l => (approval_status l, approved_by l, execution_result l))
      (audit_log (snd (process_request Scenario.denied_delete_world
                                       (Orchestrator.init Scenario.denied_delete_world "/ws")
                                       "Delete the old-backup.zip file" Scenario.empty_store)))
  = [(Some SlackApproval.DENIED, Some "carol"%string, Some "Denied"%string)].
Proof. vm_compute. auto. Qed.

End RequestFlow.

(** ** The approval request and the polling loop *)

Import SlackApproval.

Lemma process_response_fields now m r :
  id (_process_response now m r) = id r /\
  operation (_process_response now m r) = operation r /\
  timestamp (_process_response now m r) = timestamp r /\
  context (_process_response now m r) = context r /\
  response_time (_process_response now m r) = Some now.
Proof.
  unfold _process_response.
  destruct m; simpl; repeat match goal with |- context [if ?b then _ else _] => destruct b end;
    simpl; auto.
Qed.

Lemma process_response_status now m r :
  status (_process_response now m r) = APPROVED \/
  status (_process_response now m r) = DENIED \/
  status (_process_response now m r) = status r.
Proof.
  unfold _process_response.
  destruct m; simpl; repeat match goal with |- context [if ?b then _ else _] => destruct b end;
    simpl; auto.
Qed.

Lemma add_seen_spec t st :
  request (add_seen t st) = request st /\ trace (add_seen t st) = trace st /\
  check_interval (add_seen t st) = check_interval st /\
  seen_message_timestamps st ⊆ seen_message_timestamps (add_seen t st) /\
  (truthy t = true -> t ∈ seen_message_timestamps (add_seen t st)).
Proof.
  unfold add_seen. destruct (truthy t); simpl; repeat split; auto; set_solver.
Qed.

Lemma transitions_app t1 t2 : transitions (t1 ++ t2) = (transitions t1 + transitions t2)%nat.
Proof. unfold transitions. rewrite List.filter_app, length_app. reflexivity. Qed.

Lemma fetches_app t1 t2 : fetches (t1 ++ t2) = (fetches t1 + fetches t2)%nat.
Proof. unfold fetches. rewrite List.filter_app, length_app. reflexivity. Qed.

Lemma processed_ids_app t1 t2 : processed_ids (t1 ++ t2) = processed_ids t1 ++ processed_ids t2.
Proof. apply omap_app. Qed.

Lemma running_initial r : status r = PENDING -> running (initial_state r).
Proof.
  intros H. split; [split | |]; simpl; auto.
  - constructor.
  - intros t Ht. inversion Ht.
Qed.

Lemma running_emit e st :
  running st -> is_transition e = false -> processed_id e = None -> pending_before e ->
  running (emit e st).
Proof.
  intros [[Hnd Hseen Hbef Honce] Hpend Hnone] He Hp Hb.
  assert (Hids : processed_ids (trace st ++ [e]) = processed_ids (trace st)).
  { rewrite processed_ids_app. simpl. rewrite Hp. apply app_nil_r. }
  assert (Htr : transitions (trace st ++ [e]) = 0%nat).
  { rewrite transitions_app, Hnone. unfold transitions. simpl. rewrite He. reflexivity. }
  split; [split | |]; simpl; rewrite ?Hids, ?Htr; auto.
  apply Forall_app. split; [exact Hbef | constructor; [exact Hb | constructor]].
Qed.

Lemma running_sleep n st : running st -> running (sleep n st).
Proof. intros H. apply running_emit; simpl; auto. Qed.

Lemma running_set_check_interval n st : running st -> running (set_check_interval n st).
Proof. intros [[? ? ? ?] ? ?]. split; [split | |]; simpl; auto. Qed.

Lemma running_handle_error st e st' :
  running st -> handle_error st e = inr st' -> running st'.
Proof.
  intros H. unfold handle_error.
  destruct (str_in _ _); [| intros [= <-]; apply running_sleep, H].
  destruct (retry_search _) as [[digits u] |].
  - destruct (int digits); [discriminate |]. intros [= <-]. apply running_sleep, H.
  - intros [= <-]. apply running_sleep, running_set_check_interval, running_sleep, H.
Qed.

Lemma apply_ops_response_time ops : forall r,
  (status r = APPROVED \/ status r = DENIED -> is_Some (response_time r)) ->
  (status (fold_left apply_op ops r) = APPROVED \/
   status (fold_left apply_op ops r) = DENIED ->
   is_Some (response_time (fold_left apply_op ops r))) /\
  (existsb is_process ops = false ->
   response_time (fold_left apply_op ops r) = response_time r).
Proof.
  induction ops as [| o ops IH]; intros r Hr; simpl; [auto |].
  destruct (IH (apply_op r o)) as [H1 H2].
  - destruct o as [now m |]; simpl.
    + intros _. destruct (process_response_fields now m r) as (_ & _ & _ & _ & ->). eauto.
    + intros [H | H]; discriminate.
  - split; [exact H1 |].
    destruct o as [now m |]; simpl; [discriminate |].
    intros H. exact (H2 H).
Qed.

(** C3, as the code has it. After any sequence of resolution steps and
    timeouts on a request as [request_approval] creates it: when the
    status is APPROVED or DENIED the response time is set, and when no
    resolution step was among them the response time is still null. *)
Theorem response_time_of_resolved (id : string) (operation : FileAgent.FileOperation)
        (timestamp : Z) (context : string) (ops : list request_op) :
  (status (fold_left apply_op ops (new_request id operation timestamp context)) = APPROVED \/
   status (fold_left apply_op ops (new_request id operation timestamp context)) = DENIED ->
   is_Some (response_time (fold_left apply_op ops
                                      (new_request id operation timestamp context)))) /\
  (existsb is_process ops = false ->
   response_time (fold_left apply_op ops (new_request id operation timestamp context)) = None).
Proof.
  apply (apply_ops_response_time ops (new_request id operation timestamp context)).
  simpl. intros [H | H]; discriminate.
Qed.

Lemma retry_match_here_unit s digits u :
  retry_match_here s = Some (digits, u) ->
  (u = "m"%char \/ u = "s"%char) /\ digits <> ""%string.
Proof.
  unfold retry_match_here. destruct (startswith _ s); [| discriminate].
  destruct (span_digits _) as [ds rest]. destruct ds as [| c ds]; [discriminate |].
  destruct rest as [| c' rest]; [discriminate |].
  destruct (Ascii.eqb c' "m") eqn:Hm; simpl.
  - intros [= <- <-]. apply Ascii.eqb_eq in Hm. split; [auto | discriminate].
  - destruct (Ascii.eqb c' "s") eqn:Hs; [| discriminate].
    intros [= <- <-]. apply Ascii.eqb_eq in Hs. split; [auto | discriminate].
Qed.

Lemma retry_search_unit s : forall digits u,
  retry_search s = Some (digits, u) ->
  (u = "m"%char \/ u = "s"%char) /\ digits <> ""%string.
Proof.
  induction s as [| c s IH]; intros digits u; simpl.
  - discriminate.
  - destruct (retry_match_here (String c s)) as [[ds w] |] eqn:E.
    + intros [= <- <-]. eapply retry_match_here_unit, E.
    + apply IH.
Qed.

Lemma handle_error_request st e st' :
  handle_error st e = inr st' ->
  request st' = request st /\
  seen_message_timestamps st' = seen_message_timestamps st /\
  fetches (trace st') = fetches (trace st).
Proof.
  assert (Hs : forall n s, fetches (trace (sleep n s)) = fetches (trace s)).
  { intros n s. simpl. rewrite fetches_app. unfold fetches at 2. simpl. lia. }
  unfold handle_error.
  destruct (str_in _ _); [| intros [= <-]; rewrite Hs; repeat split; reflexivity].
  destruct (retry_search _) as [[digits u] |].
  - destruct (int digits); [discriminate |]. intros [= <-]. rewrite Hs.
    repeat split; reflexivity.
  - intros [= <-]. rewrite Hs.
    change (trace (set_check_interval 10 (sleep 5 st))) with (trace (sleep 5 st)).
    rewrite Hs. repeat split; reflexivity.
Qed.

(** The handler raises only what [int] raises on an overlong hint. *)
Lemma handle_error_raises st e exc :
  handle_error st e = inl exc ->
  str_in "rate limit" (lower (str_exn e)) = true /\
  exists digits u,
    retry_search (str_exn e) = Some (digits, u) /\
    (int_max_str_digits < String.length digits)%nat /\
    exc = digit_limit_error (String.length digits).
Proof.
  unfold handle_error. intros H.
  destruct (str_in _ _); [| discriminate]. split; [reflexivity |].
  destruct (retry_search _) as [[digits u] |]; [| discriminate].
  destruct (int digits) as [exc' | n] eqn:Hi; [| discriminate].
  injection H as <-. unfold int in Hi.
  destruct (int_max_str_digits <? String.length digits)%nat eqn:E; [| discriminate].
  injection Hi as <-. apply Nat.ltb_lt in E. eauto.
Qed.

Lemma handle_error_returns st e :
  overlong_hint e = false -> exists st', handle_error st e = inr st'.
Proof.
  unfold overlong_hint, handle_error.
  destruct (str_in _ _); [| eauto].
  destruct (retry_search _) as [[digits u] |]; [| eauto].
  unfold int. simpl. intros ->. eauto.
Qed.

Lemma overlong_hint_raises st e :
  overlong_hint e = true -> exists exc, handle_error st e = inl exc.
Proof.
  unfold overlong_hint, handle_error.
  destruct (str_in _ _); [| discriminate].
  destruct (retry_search _) as [[digits u] |]; [| discriminate].
  unfold int. simpl. intros ->. eauto.
Qed.

(** [request_approval] leaves the bot identity unknown: [_get_bot_info]
    returns [None] whether or not the listing of the tools succeeds. *)
Lemma bot_identity_never_known fromtimestamp DictReader json_loads (channel : string)
      (timeout_minutes : Z) (s : Session) (operation : FileAgent.FileOperation)
      (context : string) :
  bot_user_id (snd (request_approval fromtimestamp DictReader json_loads
                                     (init channel timeout_minutes) s operation context))
  = None.
Proof.
  unfold request_approval, _get_bot_info.
  destruct (initialize s); [reflexivity |].
  destruct (list_tools s); [destruct (bot_tools s); reflexivity |].
  destruct (post_prompt s); destruct (bot_tools s); reflexivity.
Qed.

Section MessageStep.

Variable fromtimestamp : string -> option Z.
Variable self : client.

Abbreviation handle_message := (handle_message fromtimestamp self).
Abbreviation handle_messages := (handle_messages fromtimestamp self).

Lemma handle_message_handled now st m :
  handled fromtimestamp self now st m (handle_message now st m).
Proof.
  unfold SlackApproval.handle_message.
  destruct (truthy (msg_ts m) && bool_decide (msg_ts m ∈ seen_message_timestamps st))%bool eqn:Hseen.
  { apply andb_true_iff in Hseen as [_ Hin%bool_decide_eq_true].
    apply handled_skip; auto. }
  destruct (_is_bot_message fromtimestamp self m) eqn:Hbot.
  { destruct (add_seen_spec (msg_ts m) st) as (? & ? & ? & ? & ?). apply handled_skip; auto. }
  destruct (_is_approval_response m (id (request st))) eqn:Happ.
  2: { destruct (add_seen_spec (msg_ts m) st) as (? & ? & ? & ? & ?). apply handled_skip; auto. }
  destruct (add_seen_spec (msg_ts m) st) as (Hr & Ht & Hc & Hs & Hin).
  rewrite Hr.
  set (r := _process_response now m (request st)).
  set (st' := emit _ _).
  change (status r) with (status (request st')).
  apply handled_process; auto.
  - intros Htr Hin'. rewrite Htr in Hseen. simpl in Hseen.
    apply bool_decide_eq_false in Hseen. auto.
  - subst st'. simpl. rewrite Ht. reflexivity.
Qed.

Lemma handled_running now st m o :
  running st -> handled fromtimestamp self now st m o ->
  match o with
  | Running st' => running st'
  | Returned st' => good st'
  end.
Proof.
  intros [[Hnd Hseen Hbef Honce] Hpend Hnone] H.
  destruct H as [st' Hr Ht Hc Hs Hin | st' Hbot Happ Hfresh Hr Ht Hc Hs Hin].
  - split; [split | |]; rewrite ?Ht, ?Hr; auto.
  - assert (Hg : good st').
    { split; rewrite Ht.
      - rewrite processed_ids_app. simpl.
        destruct (truthy (msg_ts m)) eqn:Htr; simpl; [| rewrite app_nil_r; exact Hnd].
        apply NoDup_app. split; [exact Hnd |]. split; [| apply NoDup_singleton].
        intros x Hx Hx'. apply list_elem_of_singleton in Hx'. subst x.
        apply (Hfresh eq_refl), Hseen, Hx.
      - rewrite processed_ids_app. intros t Hin'.
        apply elem_of_app in Hin' as [Hin' | Hin'].
        + apply Hs, Hseen, Hin'.
        + simpl in Hin'. destruct (truthy (msg_ts m)) eqn:Htr; simpl in Hin'.
          * apply list_elem_of_singleton in Hin'. subst t. apply Hin. reflexivity.
          * inversion Hin'.
      - apply Forall_app. split; [exact Hbef |]. constructor; [exact Hpend | constructor].
      - rewrite transitions_app, Hnone. unfold transitions. simpl.
        destruct (negb _); simpl; lia. }
    destruct (bool_decide (status (request st') ≠ PENDING)) eqn:Hd; [exact Hg |].
    apply bool_decide_eq_false in Hd.
    assert (Hp : status (request st') = PENDING).
    { destruct (decide (status (request st') = PENDING)); [assumption | contradiction]. }
    split; [exact Hg | exact Hp |].
    rewrite Ht, transitions_app, Hnone, Hpend, Hp. reflexivity.
Qed.

Lemma handle_messages_running now l : forall st,
  running st ->
  match handle_messages now st l with
  | Running st' => running st'
  | Returned st' => good st'
  end.
Proof.
  induction l as [| m l IH]; intros st Hst; simpl; [exact Hst |].
  pose proof (handled_running now st m _ Hst (handle_message_handled now st m)) as H.
  destruct (handle_message now st m) as [st' | st']; [exact H | apply IH, H].
Qed.

(** C2, as the code has it. A message dictionary whose [user] is the
    known (non-empty) bot identity, or whose text contains one of the
    two marker strings of the prompt, is classified as the bot's own,
    and handling it leaves the request and the trace as they were,
    whatever else its text contains. *)
Theorem bot_message_never_resolves (d : Msg.dict) (now : Z) (st : loop_state) :
  (exists b, bot_user_id self = Some b /\ truthy b = true /\ Msg.user d = Some b) \/
  str_in "Agent Approval Request" (default ""%string (Msg.text d)) = true \/
  str_in "To approve, reply:" (default ""%string (Msg.text d)) = true ->
  _is_bot_message fromtimestamp self (MDict d) = true /\
  exists st', handle_message now st (MDict d) = Running st' /\
              request st' = request st /\ trace st' = trace st.
Proof.
  intros H.
  assert (Hbot : _is_bot_message fromtimestamp self (MDict d) = true).
  { unfold _is_bot_message.
    destruct H as [(b & -> & Hb & ->) | H].
    - simpl. rewrite Hb, String.eqb_refl. reflexivity.
    - destruct (match bot_user_id self with Some _ => _ | None => _ end); [reflexivity |].
      destruct (_ || _)%bool; [reflexivity |].
      destruct H as [-> | ->]; rewrite ?orb_true_r; reflexivity. }
  split; [exact Hbot |].
  unfold SlackApproval.handle_message.
  destruct (_ && _)%bool; [eauto |].
  rewrite Hbot. destruct (add_seen_spec (msg_ts (MDict d)) st) as (? & ? & _). eauto.
Qed.

(** C10. A message dictionary whose action value contains the request
    id, while its text does not hold the id together with an approve,
    deny or reject word: it is a candidate response, the resolution
    step leaves a pending request pending, and handling it in any state
    of the loop keeps the loop running with the request pending and the
    message's identifier, when it has one, marked as seen. *)
Theorem button_only_never_resolves (d : Msg.dict) (v : string) (now : Z) (st : loop_state) :
  Msg.value d = Some v ->
  str_in (id (request st)) v = true ->
  text_matches (id (request st)) (default ""%string (Msg.text d)) = false ->
  status (request st) = PENDING ->
  _is_approval_response (MDict d) (id (request st)) = true /\
  status (_process_response now (MDict d) (request st)) = PENDING /\
  exists st', handle_message now st (MDict d) = Running st' /\
              status (request st') = PENDING /\
              (truthy (msg_ts (MDict d)) = true ->
               msg_ts (MDict d) ∈ seen_message_timestamps st').
Proof.
  intros Hv Hin Htext Hp.
  assert (Happ : _is_approval_response (MDict d) (id (request st)) = true).
  { unfold _is_approval_response. destruct (existsb _ _); [reflexivity |].
    rewrite Htext, Hv. exact Hin. }
  assert (Hproc : forall r, id r = id (request st) -> status r = PENDING ->
                            status (_process_response now (MDict d) r) = PENDING).
  { intros r Hid Hs. unfold _process_response. simpl. rewrite Hid.
    unfold text_matches in Htext.
    destruct (str_in (lower (id (request st))) _); simpl in Htext.
    - apply orb_false_iff in Htext as [-> ->]. simpl. exact Hs.
    - rewrite !andb_false_r. simpl. exact Hs. }
  split; [exact Happ |]. split; [apply Hproc; auto |].
  pose proof (handle_message_handled now st (MDict d)) as H.
  inversion H as [st' Hr Ht Hc Hs Hseen Heq | st' Hbot Happ' Hfresh Hr Ht Hc Hs Hseen Heq].
  - exists st'. rewrite Hr. auto.
  - assert (Hst' : status (request st') = PENDING) by (rewrite Hr; apply Hproc; auto).
    rewrite Hst'. rewrite bool_decide_eq_false_2 by (intros Hn; apply Hn; reflexivity).
    exists st'. auto.
Qed.

End MessageStep.

Section Polling.

Variable fromtimestamp : string -> option Z.
Variable DictReader : string -> list (gmap string string).
Variable json_loads : string -> option payload.
Variable self : client.

Abbreviation poll_once := (poll_once fromtimestamp DictReader json_loads self).
Abbreviation wait_loop := (wait_loop fromtimestamp DictReader json_loads self).

Lemma poll_once_running st p :
  running st ->
  match poll_once st p with
  | Normal (Running st') => running st'
  | Normal (Returned st') | Escaped _ st' => good st'
  end.
Proof.
  intros H. unfold SlackApproval.poll_once.
  assert (H' : running (emit EvFetch st)) by (apply running_emit; simpl; auto).
  destruct (fetched p) as [e | | c].
  - destruct (handle_error _ e) as [exc | st'] eqn:He.
    + apply H'.
    + apply (running_handle_error _ _ _ H' He).
  - apply running_sleep, H'.
  - pose proof (handle_messages_running fromtimestamp self (clock p)
                                        (message_list DictReader json_loads c) _ H') as Hm.
    destruct (handle_messages _ _ _ _ _) as [st' | st']; [exact Hm | apply running_sleep, Hm].
Qed.

Lemma wait_loop_good polls : forall st, running st -> good (wait_loop st polls).
Proof.
  unfold SlackApproval.wait_loop.
  induction polls as [| p polls IH]; intros st H; simpl.
  - destruct H as [[? ? ? ?] _ _]. split; simpl; auto.
  - pose proof (poll_once_running st p H) as Hp.
    destruct (poll_once st p) as [[st' | st'] | exc st']; [exact Hp | apply IH, Hp | exact Hp].
Qed.

(** C6. From a pending request and over any sequence of fetches before
    the deadline (two cycles that return the same payload among them):
    no message identifier is handed to the resolution step twice, and
    at most one resolution step changes the status of the request.  The
    identifiers are the non-empty [ts] values; a message that has none
    is looked at again in each cycle, without a second transition. *)
Theorem no_message_matched_twice (request : ApprovalRequest) (polls : list poll) :
  status request = PENDING ->
  NoDup (processed_ids (trace (wait_loop (initial_state request) polls))) /\
  (transitions (trace (wait_loop (initial_state request) polls)) <= 1)%nat.
Proof.
  intros H. destruct (wait_loop_good polls _ (running_initial _ H)) as [? ? ? ?]. auto.
Qed.

(** C4, as the code has it. A resolution step on a request whose status
    is terminal never gives PENDING back and leaves the id, the
    operation, the creation time and the context as they were.  The
    step has no guard of its own; the polling loop, started on a pending
    request, only ever hands it a request whose status is PENDING. *)
Theorem terminal_never_pending (now : Z) (m : message) (r request : ApprovalRequest)
        (polls : list poll) :
  status r <> PENDING ->
  status request = PENDING ->
  (status (_process_response now m r) <> PENDING /\
   id (_process_response now m r) = id r /\
   operation (_process_response now m r) = operation r /\
   timestamp (_process_response now m r) = timestamp r /\
   context (_process_response now m r) = context r) /\
  Forall pending_before (trace (wait_loop (initial_state request) polls)).
Proof.
  intros Hr Hp. split.
  - destruct (process_response_fields now m r) as (? & ? & ? & ? & _).
    repeat split; auto.
    destruct (process_response_status now m r) as [-> | [-> | ->]]; auto; discriminate.
  - apply wait_loop_good, running_initial, Hp.
Qed.

End Polling.

(** ** The properties at work *)

Section Examples.
Import Scenario.

Abbreviation run_loop :=
  (wait_loop Scenario.fromtimestamp Scenario.DictReader Scenario.json_loads Scenario.client).

(** C2 fails for a message that is a bare string: it contains the
    marker text, it is not classified as the bot's own, and it approves
    the request. *)
Lemma string_message_resolves :
  str_in "Agent Approval Request" "Agent Approval Request: to approve, reply: approve ab12cd34"
  = true /\
  _is_bot_message Scenario.fromtimestamp Scenario.client prompt_text = false /\
  exists r,
    _wait_for_response Scenario.fromtimestamp Scenario.DictReader Scenario.json_loads
                       Scenario.client pending [fetch_of [prompt_text] (t0 + 60000000)]
    = inr r /\
    status r = APPROVED.
Proof. vm_compute. eauto. Qed.

Lemma bot_message_never_resolves_witness :
  _is_bot_message Scenario.fromtimestamp Scenario.client (MDict prompt_echo) = true /\
  exists st',
    handle_message Scenario.fromtimestamp Scenario.client (t0 + 60000000)
                   (initial_state pending) (MDict prompt_echo) = Running st' /\
    request st' = request (initial_state pending) /\
    trace st' = trace (initial_state pending).
Proof.
  apply (bot_message_never_resolves Scenario.fromtimestamp Scenario.client prompt_echo
                                    (t0 + 60000000) (initial_state pending)).
  right; left. reflexivity.
Defined.

(** C3 fails after a button click: the loop hands it to the resolution
    step, which sets the response time and leaves the status PENDING;
    the request then times out with its response time set. *)
Lemma response_time_without_resolution :
  status (_process_response (t0 + 60000000) (MDict button_click) pending) = PENDING /\
  response_time (_process_response (t0 + 60000000) (MDict button_click) pending)
  = Some (t0 + 60000000) /\
  exists r,
    _wait_for_response Scenario.fromtimestamp Scenario.DictReader Scenario.json_loads
                       Scenario.client pending
                       [fetch_of [MDict button_click] (t0 + 60000000)]
    = inr r /\
    status r = TIMEOUT /\
    response_time r = Some (t0 + 60000000).
Proof. vm_compute. eauto 10. Qed.

(** C4 fails on a request that alice approved: a later denial by carol
    turns it into DENIED and overwrites the responder and the response
    time. *)
Lemma approved_request_denied_afterwards :
  status (_process_response (t0 + 60000000) approve_reply pending) = APPROVED /\
  responded_by (_process_response (t0 + 60000000) approve_reply pending) = Some "alice"%string /\
  status (_process_response (t0 + 90000000) deny_reply
            (_process_response (t0 + 60000000) approve_reply pending)) = DENIED /\
  responded_by (_process_response (t0 + 90000000) deny_reply
                  (_process_response (t0 + 60000000) approve_reply pending))
  = Some "carol"%string /\
  response_time (_process_response (t0 + 90000000) deny_reply
                   (_process_response (t0 + 60000000) approve_reply pending))
  = Some (t0 + 90000000).
Proof. vm_compute. auto 10. Qed.

Lemma terminal_never_pending_witness :
  (status (_process_response (t0 + 90000000) deny_reply
             (_process_response (t0 + 60000000) approve_reply pending)) <> PENDING /\
   id (_process_response (t0 + 90000000) deny_reply
         (_process_response (t0 + 60000000) approve_reply pending))
   = id (_process_response (t0 + 60000000) approve_reply pending) /\
   operation (_process_response (t0 + 90000000) deny_reply
                (_process_response (t0 + 60000000) approve_reply pending))
   = operation (_process_response (t0 + 60000000) approve_reply pending) /\
   timestamp (_process_response (t0 + 90000000) deny_reply
                (_process_response (t0 + 60000000) approve_reply pending))
   = timestamp (_process_response (t0 + 60000000) approve_reply pending) /\
   context (_process_response (t0 + 90000000) deny_reply
              (_process_response (t0 + 60000000) approve_reply pending))
   = context (_process_response (t0 + 60000000) approve_reply pending)) /\
  Forall pending_before
         (trace (run_loop (initial_state pending)
                          [fetch_of [approve_reply; deny_reply] (t0 + 95000000)])).
Proof.
  apply (terminal_never_pending Scenario.fromtimestamp Scenario.DictReader Scenario.json_loads
                                Scenario.client (t0 + 90000000) deny_reply
                                (_process_response (t0 + 60000000) approve_reply pending)
                                pending
                                [fetch_of [approve_reply; deny_reply] (t0 + 95000000)]).
  - vm_compute. discriminate.
  - reflexivity.
Defined.

(** Three fetches: the click alone, the click alone again, then the
    click and alice's reply.  The click is handed over once. *)
Example button_click_processed_once :
  processed_ids
    (trace (run_loop (initial_state pending)
                     [fetch_of [MDict button_click] (t0 + 31000000);
                      fetch_of [MDict button_click] (t0 + 34000000);
                      fetch_of [MDict button_click; approve_reply] (t0 + 61000000)]))
  = ["1700000030.000050"; "1700000060.000100"]%string /\
  status (request (run_loop (initial_state pending)
                            [fetch_of [MDict button_click] (t0 + 31000000);
                             fetch_of [MDict button_click] (t0 + 34000000);
                             fetch_of [MDict button_click; approve_reply] (t0 + 61000000)]))
  = APPROVED.
Proof. vm_compute. auto. Qed.

Lemma no_message_matched_twice_witness :
  NoDup (processed_ids
           (trace (run_loop (initial_state pending)
                            [fetch_of [MDict button_click] (t0 + 31000000);
                             fetch_of [MDict button_click] (t0 + 34000000);
                             fetch_of [MDict button_click; approve_reply] (t0 + 61000000)]))) /\
  (transitions
     (trace (run_loop (initial_state pending)
                      [fetch_of [MDict button_click] (t0 + 31000000);
                       fetch_of [MDict button_click] (t0 + 34000000);
                       fetch_of [MDict button_click; approve_reply] (t0 + 61000000)])) <= 1)%nat.
Proof.
  apply (no_message_matched_twice Scenario.fromtimestamp Scenario.DictReader
                                  Scenario.json_loads Scenario.client pending).
  reflexivity.
Defined.

(** C9 fails on a rate-limit error whose retry hint has 4301 digits:
    the handler reads the hint, [int] refuses it, and the [ValueError]
    leaves the handler, the loop and [request_approval] after the first
    fetch, with the request still pending and alice's approval, which
    the second fetch would have shown, never read. *)
Theorem long_retry_hint_aborts_wait :
  str_in "rate limit" (lower (str_exn long_hint)) = true /\
  retry_search (str_exn long_hint) = Some (nines 4301, "s"%char) /\
  poll_once Scenario.fromtimestamp Scenario.DictReader Scenario.json_loads Scenario.client
            (initial_state pending) {| fetched := FetchRaise long_hint; clock := t0 + 3000000 |}
  = Escaped (ValueError ("Exceeds the limit (4300 digits) for integer string conversion: " +:+
                         "value has 4301 digits; use sys.set_int_max_str_digits() to " +:+
                         "increase the limit"))
            (emit EvFetch (initial_state pending)) /\
  _wait_for_response Scenario.fromtimestamp Scenario.DictReader Scenario.json_loads
                     Scenario.client pending
                     [{| fetched := FetchRaise long_hint; clock := t0 + 3000000 |};
                      fetch_of [approve_reply] (t0 + 61000000)]
  = inl (ValueError ("Exceeds the limit (4300 digits) for integer string conversion: " +:+
                     "value has 4301 digits; use sys.set_int_max_str_digits() to " +:+
                     "increase the limit")) /\
  fst (request_approval Scenario.fromtimestamp Scenario.DictReader Scenario.json_loads
                        (init "C09678WRA30" 5) long_hint_session delete_backup
                        "Delete old-backup.zip")
  = inl (ValueError ("Exceeds the limit (4300 digits) for integer string conversion: " +:+
                     "value has 4301 digits; use sys.set_int_max_str_digits() to " +:+
                     "increase the limit")) /\
  status (request (run_loop (initial_state pending)
                            [{| fetched := FetchRaise long_hint; clock := t0 + 3000000 |};
                             fetch_of [approve_reply] (t0 + 61000000)]))
  = PENDING.
Proof. vm_compute. auto 10. Qed.

(** The same error, end to end: the caller of [process_request] is
    told that the approval could not be obtained, one fetch after the
    prompt was posted, and the audit entry carries the error and no
    approval status. *)
Example long_hint_end_to_end :
  fst (Orchestrator.process_request
         long_hint_world (Orchestrator.init long_hint_world "/ws")
         "Delete the old-backup.zip file" empty_store)
  = inr {| Orchestrator.success := false; Orchestrator.result := None;
           Orchestrator.r_error :=
             Some ("Failed to get approval: Exceeds the limit (4300 digits) for integer " +:+
                   "string conversion: value has 4301 digits; use " +:+
                   "sys.set_int_max_str_digits() to increase the limit");
           Orchestrator.r_required_approval := true;
           Orchestrator.r_approval_status := Some "error"%string |} /\
  map (fun l => (Orchestrator.approval_status l, Orchestrator.execution_result l))
      (Orchestrator.audit_log
         (snd (Orchestrator.process_request
                 long_hint_world (Orchestrator.init long_hint_world "/ws")
                 "Delete the old-backup.zip file" empty_store)))
  = [(None, None)].
Proof. vm_compute. auto. Qed.

Lemma button_only_never_resolves_witness :
  _is_approval_response (MDict button_click) (id (request (initial_state pending))) = true /\
  status (_process_response (t0 + 60000000) (MDict button_click)
                            (request (initial_state pending))) = PENDING /\
  exists st',
    handle_message Scenario.fromtimestamp Scenario.client (t0 + 60000000)
                   (initial_state pending) (MDict button_click) = Running st' /\
    status (request st') = PENDING /\
    (truthy (msg_ts (MDict button_click)) = true ->
     msg_ts (MDict button_click) ∈ seen_message_timestamps st').
Proof.
  apply (button_only_never_resolves Scenario.fromtimestamp Scenario.client button_click
                                    "approve_ab12cd34" (t0 + 60000000)
                                    (initial_state pending)); reflexivity.
Defined.

End Examples.

(** * Further properties *)

(** ** The request flow, path by path *)

Section Flow.
Import FileAgent Orchestrator.

Ltac start_request :=
  unfold process_request, set_log_entry, parse_intent, log, bind, modify, of_sum,
         try_except, ret;
  rewrite lift_agent_run; simpl.

Ltac ask_approval :=
  unfold Orchestrator.request_approval, bind, modify, of_sum, update_log_entry,
         append_log_entry; simpl.

Ltac finish_request :=
  unfold update_log_entry, append_log_entry, get_log_entry, bind, modify; simpl.

Ltac execute :=
  rewrite execute_with_fallback_primary, lift_agent_run; simpl.

(** What one request leaves behind, whatever path it takes. *)
Lemma process_request_outcome (str : pyobj -> string) (env : Env) (self : orchestrator)
      (user_input : string) (s : store) :
  exists r s' new,
    process_request env self user_input s = (inr r, s') /\
    audit_log s' = audit_log s ++ new /\
    length new = (if Main.parsed env user_input then 1 else 0)%nat /\
    Forall consistent new /\
    is_Some (Main.report str r).
Proof.
  unfold Main.parsed. start_request.
  destruct (intent (agent_env env) user_input) as [e | op] eqn:Hi; simpl.
  { eexists _, _, []. rewrite app_nil_r. repeat split; eauto. }
  destruct (is_high_risk_operation (agent self) op) eqn:Hr; simpl.
  - ask_approval.
    destruct (approval env op _) as [e | a]; simpl.
    { eexists _, _, [_]. repeat split; eauto.
      constructor; [| constructor]. unfold consistent; simpl.
      repeat split; try discriminate; auto. intros [? ?]; discriminate. }
    destruct (SlackApproval.status a) eqn:Hs; simpl.
    all: try (eexists _, _, [_]; repeat split; eauto;
              constructor; [| constructor]; unfold consistent; simpl;
              repeat split; try discriminate; eauto).
    execute. destruct (fst _); simpl.
    all: eexists _, _, [_]; repeat split; eauto;
      constructor; [| constructor]; unfold consistent; simpl;
      repeat split; try discriminate; eauto.
    intros [? ?]; discriminate.
  - execute. finish_request. destruct (fst _); simpl.
    all: eexists _, _, [_]; repeat split; eauto;
      constructor; [| constructor]; unfold consistent; simpl;
      repeat split; try discriminate; eauto.
    intros [? ?]; discriminate.
Qed.


(** X1. A low-risk operation is executed at once: the only calls are
    the intent parser's and the executor's, no approval is requested,
    and the response says so. It succeeds exactly when the executor
    returns. *)
Theorem low_risk_skips_approval (env : Env) (self : orchestrator) (user_input : string)
        (operation : FileOperation) (s : store) :
  intent (agent_env env) user_input = inr operation ->
  is_high_risk_operation (agent self) operation = false ->
  exists r s',
    process_request env self user_input s = (inr r, s') /\
    calls s' = calls s ++ AgentCall (CallIntent user_input) ::
               map AgentCall (snd (execute_operation (agent_env env) (agent self)
                                                     operation [])) /\
    r_required_approval r = false /\
    r_approval_status r = None /\
    result r = match fst (execute_operation (agent_env env) (agent self) operation []) with
               | inr res => Some res
               | inl _ => None
               end /\
    success r = bool_decide (is_Some (result r)).
Proof.
  intros Hi Hr. start_request. rewrite Hi; simpl. rewrite Hr; simpl.
  execute. finish_request.
  destruct (execute_operation _ _ _ []) as [[e | res] t]; simpl.
  all: eexists _, _; split; [reflexivity |]; simpl; rewrite <- app_assoc; simpl.
  all: repeat split; auto.
Qed.

(** X2. A high-risk operation reaches the executor only through an
    approval: when the approval system raises, or answers with any
    status but APPROVED, the request fails and the only calls made are
    the intent parser's and the approval request. *)
Theorem executor_needs_approval (env : Env) (self : orchestrator) (user_input : string)
        (operation : FileOperation) (s : store) :
  intent (agent_env env) user_input = inr operation ->
  is_high_risk_operation (agent self) operation = true ->
  (forall a, approval env operation (_create_approval_context operation user_input) = inr a ->
             SlackApproval.status a <> SlackApproval.APPROVED) ->
  exists r s',
    process_request env self user_input s = (inr r, s') /\
    success r = false /\
    result r = None /\
    r_required_approval r = true /\
    calls s' = calls s ++
               [AgentCall (CallIntent user_input);
                ApprovalCall operation (_create_approval_context operation user_input)].
Proof.
  intros Hi Hr Ha. start_request. rewrite Hi; simpl. rewrite Hr; simpl.
  ask_approval.
  destruct (approval env operation _) as [e | a] eqn:E; simpl.
  { eexists _, _; split; [reflexivity |]; simpl; rewrite <- app_assoc; auto. }
  specialize (Ha a eq_refl).
  destruct (SlackApproval.status a); simpl; try congruence.
  all: eexists _, _; split; [reflexivity |]; simpl; rewrite <- app_assoc; auto.
Qed.

(** X3. When an approved operation fails in the executor, the failure
    comes back through the handler of the approval call: the response
    carries the status "error" and an error that starts with "Failed to
    get approval: ", and the one audit entry keeps the status APPROVED
    and the responder beside its error. *)
Theorem execution_failure_reported_as_approval_error
        (env : Env) (self : orchestrator) (user_input : string)
        (operation : FileOperation) (a : SlackApproval.ApprovalRequest) (e : exn)
        (t : list agent_call) (s : store) :
  intent (agent_env env) user_input = inr operation ->
  is_high_risk_operation (agent self) operation = true ->
  approval env operation (_create_approval_context operation user_input) = inr a ->
  SlackApproval.status a = SlackApproval.APPROVED ->
  execute_operation (agent_env env) (agent self) operation [] = (inl e, t) ->
  exists s' entry,
    process_request env self user_input s =
    (inr {| success := false; result := None;
            r_error := Some ("Failed to get approval: " +:+ str_exn e);
            r_required_approval := true; r_approval_status := Some "error"%string |}, s') /\
    audit_log s' = audit_log s ++ [entry] /\
    approval_status entry = Some SlackApproval.APPROVED /\
    approved_by entry = SlackApproval.responded_by a /\
    execution_result entry = None /\
    error entry = Some ("Approval system error: " +:+ str_exn e).
Proof.
  intros Hi Hr Ha Hs Hx. start_request. rewrite Hi; simpl. rewrite Hr; simpl.
  ask_approval. rewrite Ha; simpl. rewrite Hs; simpl.
  execute. rewrite Hx; simpl.
  eexists _, _; split; [reflexivity |]; simpl. repeat split; reflexivity.
Qed.

Lemma process_all_outcome (str : pyobj -> string) (env : Env) (self : orchestrator)
      (test_cases : list string) : forall s,
  exists rs s' new,
    Main.process_all env self test_cases s = (inr rs, s') /\
    length rs = length test_cases /\
    audit_log s' = audit_log s ++ new /\
    length new = length (List.filter (Main.parsed env) test_cases) /\
    Forall consistent new /\
    Forall (fun r => is_Some (Main.report str r)) rs.
Proof.
  induction test_cases as [| i rest IH]; intros s; simpl.
  - exists [], s, []. rewrite app_nil_r. repeat split; auto.
  - destruct (process_request_outcome str env self i s)
      as (r & s1 & new1 & Hrun & Hlog1 & Hlen1 & Hc1 & Hrep).
    destruct (IH s1) as (rs & s2 & new2 & Hrest & Hlen & Hlog2 & Hlen2 & Hc2 & Hreps).
    exists (r :: rs), s2, (new1 ++ new2).
    unfold bind, ret. rewrite Hrun, Hrest.
    split; [reflexivity |]. split; [simpl; congruence |].
    split; [rewrite Hlog2, Hlog1, app_assoc; reflexivity |].
    split; [| split; [apply Forall_app; auto | constructor; auto]].
    rewrite length_app, Hlen1, Hlen2.
    destruct (Main.parsed env i); simpl; lia.
Qed.

(** X4. Over any list of requests handled one after the other, the
    audit log only grows at its end: the entries it had stay in
    place, one entry is added for each request whose intent was parsed
    and none for the others, and in each added entry exactly one of
    result and error is set, a low-risk entry has no approval fields,
    and a high-risk entry marked Success has the status APPROVED. *)
Theorem process_all_audit_log (env : Env) (self : orchestrator)
        (test_cases : list string) (s : store) :
  exists rs s' new,
    Main.process_all env self test_cases s = (inr rs, s') /\
    audit_log s' = audit_log s ++ new /\
    length new = length (List.filter (Main.parsed env) test_cases) /\
    Forall consistent new.
Proof.
  destruct (process_all_outcome (fun _ => ""%string) env self test_cases s)
    as (rs & s' & new & H & _ & Hlog & Hlen & Hc & _).
  eauto 10.
Qed.

(** X5. The loop of [demonstrate_agent] gets one response for each
    input, and every subscript it applies to a response finds its key:
    a success has a result (and an approval status when approval was
    required), a failure has an error. *)
Theorem demonstrate_agent_reports_every_result (str : pyobj -> string) (env : Env)
        (self : orchestrator) (test_cases : list string) (s : store) :
  exists rs s',
    Main.process_all env self test_cases s = (inr rs, s') /\
    length rs = length test_cases /\
    Forall (fun r => is_Some (Main.report str r)) rs.
Proof.
  destruct (process_all_outcome str env self test_cases s)
    as (rs & s' & new & H & Hlen & _ & _ & _ & Hrep).
  eauto 10.
Qed.

(** X6. [get_audit_log] returns, in the order of the log, the records
    of exactly the entries whose timestamp is not before the start and
    not after the end, where a bound is given; and a request handled
    later only adds to the end of what a query returns. *)
Theorem get_audit_log_range (env : Env) (self : orchestrator) (user_input : string)
        (s : store) (start_date end_date : option Z) :
  get_audit_log env (audit_log s) start_date end_date =
  map (render env)
      (List.filter (fun l => (match start_date with
                              | Some d => d <=? timestamp l
                              | None => true
                              end) &&
                             (match end_date with
                              | Some d => timestamp l <=? d
                              | None => true
                              end))%bool
                   (audit_log s)) /\
  exists later,
    get_audit_log env (audit_log (snd (process_request env self user_input s)))
                  start_date end_date =
    get_audit_log env (audit_log s) start_date end_date ++ later /\
    (length later <= 1)%nat.
Proof.
  assert (Hfuse : forall log,
             get_audit_log env log start_date end_date =
             map (render env)
                 (List.filter (fun l => (match start_date with
                                         | Some d => d <=? timestamp l
                                         | None => true
                                         end) &&
                                        (match end_date with
                                         | Some d => timestamp l <=? d
                                         | None => true
                                         end))%bool log)).
  { intros log. unfold get_audit_log. f_equal.
    destruct start_date as [sd |], end_date as [ed |]; simpl.
    - induction log as [| l log IH]; simpl; [reflexivity |].
      destruct (sd <=? timestamp l); simpl; [| exact IH].
      destruct (timestamp l <=? ed); simpl; congruence.
    - apply List.filter_ext. intros l. rewrite andb_true_r. reflexivity.
    - reflexivity.
    - induction log as [| l log IH]; simpl; congruence. }
  split; [apply Hfuse |].
  destruct (process_request_outcome (fun _ => ""%string) env self user_input s)
    as (r & s' & new & Hrun & Hlog & Hlen & _ & _).
  rewrite Hrun; simpl. rewrite !Hfuse, Hlog, List.filter_app, map_app.
  eexists; split; [reflexivity |].
  rewrite length_map. etransitivity; [apply List.filter_length_le |].
  rewrite Hlen. destruct (Main.parsed env user_input); lia.
Qed.

End Flow.

(** ** Strings *)

Lemma startswith_app (p s : string) : startswith p (p +:+ s) = true.
Proof. induction p as [| c p IH]; simpl; [reflexivity |]. rewrite Ascii.eqb_refl. exact IH. Qed.

Lemma startswith_app_l (x a b : string) :
  startswith x a = true -> startswith x (a +:+ b) = true.
Proof.
  revert a. induction x as [| c x IH]; intros a; simpl; [reflexivity |].
  destruct a as [| d a]; simpl; [discriminate |].
  destruct (Ascii.eqb c d); [apply IH | discriminate].
Qed.

Lemma startswith_refl (x : string) : startswith x x = true.
Proof. induction x as [| c x IH]; simpl; [reflexivity |]. rewrite Ascii.eqb_refl. exact IH. Qed.

Lemma str_in_here (x s : string) : startswith x s = true -> str_in x s = true.
Proof. intros H. destruct s; simpl in *; rewrite H; reflexivity. Qed.

Lemma str_in_app_r (x a b : string) : str_in x b = true -> str_in x (a +:+ b) = true.
Proof.
  intros H. induction a as [| c a IH]; simpl; [exact H |].
  rewrite IH. apply orb_true_r.
Qed.

Lemma str_in_app_l (x a b : string) : str_in x a = true -> str_in x (a +:+ b) = true.
Proof.
  induction a as [| c a IH]; simpl.
  - rewrite orb_false_r. intros H. apply str_in_here, (startswith_app_l x "" b H).
  - intros H. apply orb_true_iff in H as [H | H].
    + pose proof (startswith_app_l x (String c a) b H) as H'.
      change (startswith x (String c (a +:+ b)) = true) in H'.
      rewrite H'. reflexivity.
    + rewrite (IH H). apply orb_true_r.
Qed.

Lemma str_in_middle (x a b : string) : str_in x (a +:+ x +:+ b) = true.
Proof. apply str_in_app_r, str_in_app_l, str_in_here, startswith_refl. Qed.

Lemma string_length_app (a b : string) :
  String.length (a +:+ b) = (String.length a + String.length b)%nat.
Proof. induction a as [| c a IH]; simpl; [reflexivity | rewrite IH; reflexivity]. Qed.

Lemma substring_skip (a s : string) (n : nat) :
  String.substring (String.length a) n (a +:+ s) = String.substring 0 n s.
Proof. induction a as [| c a IH]; simpl; [reflexivity | exact IH]. Qed.

Lemma substring_take (b c : string) :
  String.substring 0 (String.length b) (b +:+ c) = b.
Proof.
  induction b as [| d b IH]; simpl; [destruct c; reflexivity |].
  rewrite IH. reflexivity.
Qed.

Lemma slice_between (p body q : string) :
  slice (String.length p) (String.length q) (p +:+ body +:+ q) = body.
Proof.
  unfold slice. rewrite substring_skip, !string_length_app.
  replace (String.length p + (String.length body + String.length q)
           - String.length p - String.length q)%nat
    with (String.length body) by lia.
  apply substring_take.
Qed.

Lemma endswith_app (s q : string) : endswith q (s +:+ q) = true.
Proof.
  unfold endswith. rewrite string_length_app.
  replace (String.length s + String.length q - String.length q)%nat
    with (String.length s) by lia.
  rewrite substring_skip.
  replace (String.substring 0 (String.length q) q) with q.
  - rewrite String.eqb_refl. apply andb_true_iff. split; [| reflexivity].
    apply Nat.leb_le. lia.
  - pose proof (substring_take q "") as H.
    replace (q +:+ "")%string with q in H; [symmetry; exact H |].
    clear H. induction q as [| c q IH]; [reflexivity |].
    change (String c q = String c (q +:+ "")). f_equal. exact IH.
Qed.

Lemma string_app_assoc (a b c : string) : (a +:+ b) +:+ c = a +:+ b +:+ c.
Proof.
  induction a as [| d a IH]; [reflexivity |].
  change (String d ((a +:+ b) +:+ c) = String d (a +:+ b +:+ c)). f_equal. exact IH.
Qed.

Lemma endswith_between (p body q : string) : endswith q (p +:+ body +:+ q) = true.
Proof. rewrite <- string_app_assoc. apply endswith_app. Qed.

Lemma append_cons (c : ascii) (a b : string) : String c a +:+ b = String c (a +:+ b).
Proof. reflexivity. Qed.

(** closing a block with a fence does not make it start with the tag *)
Lemma no_python_tag (body : string) :
  startswith "python" body = false -> startswith "python" (body +:+ "```") = false.
Proof.
  do 6 (destruct body as [| ? body]; [intros _; reflexivity |];
        rewrite append_cons; cbn [startswith];
        match goal with
        | |- context [Ascii.eqb ?x ?y] => destruct (Ascii.eqb x y)
        end; [| reflexivity]).
  cbn [startswith]. discriminate.
Qed.

(** ** The path guard *)

Section PathGuard.
Import PosixPath.

Lemma split_nonempty (s : string) : split sep s <> [].
Proof.
  induction s as [| c s IH]; simpl; [discriminate |].
  destruct (Ascii.eqb c sep); [discriminate |].
  destruct (split sep s); [contradiction | discriminate].
Qed.

Lemma split_cons (c : ascii) (s : string) :
  Ascii.eqb c sep = false ->
  exists h t, split sep s = h :: t /\ split sep (String c s) = String c h :: t.
Proof.
  intros Hc. simpl. rewrite Hc.
  destruct (split sep s) as [| h t] eqn:E; [destruct (split_nonempty s E) |].
  eauto.
Qed.

Lemma split_app_sep (a b : string) :
  split sep (a +:+ "/" +:+ b) = split sep a ++ split sep b.
Proof.
  induction a as [| c a IH].
  - reflexivity.
  - rewrite append_cons. simpl. destruct (Ascii.eqb c sep) eqn:Hc.
    + rewrite IH. reflexivity.
    + rewrite IH. destruct (split sep a) as [| h t] eqn:E; [destruct (split_nonempty a E) |].
      reflexivity.
Qed.

Lemma str_in_cons_false (x : string) (c : ascii) (s : string) :
  str_in x (String c s) = false -> str_in x s = false.
Proof. cbn [str_in]. intros H. apply orb_false_iff in H as [_ H]. exact H. Qed.

Lemma split_component (c : string) : str_in "/" c = false -> split sep c = [c].
Proof.
  induction c as [| a c IH]; intros H; [reflexivity |].
  assert (Ha : Ascii.eqb a sep = false).
  { cbn [str_in startswith] in H. apply orb_false_iff in H as [H _].
    unfold sep. rewrite Ascii.eqb_sym. destruct (Ascii.eqb "/" a); [discriminate | reflexivity]. }
  simpl. rewrite Ha, (IH (str_in_cons_false _ _ _ H)). reflexivity.
Qed.

Lemma split_join (cs : list string) :
  cs <> [] -> Forall (fun c => str_in "/" c = false) cs ->
  split sep (PyStr.join "/" cs) = cs.
Proof.
  induction cs as [| c cs IH]; intros Hne H; [contradiction |].
  inversion H as [| ? ? Hc Hcs]; subst.
  destruct cs as [| d cs].
  - simpl. apply split_component, Hc.
  - change (PyStr.join "/" (c :: d :: cs)) with (c +:+ "/" +:+ PyStr.join "/" (d :: cs)).
    rewrite split_app_sep, (split_component c Hc), IH; [reflexivity | discriminate | exact Hcs].
Qed.

Lemma split_no_sep (s : string) : Forall (fun c => str_in "/" c = false) (split sep s).
Proof.
  induction s as [| a s IH]; simpl; [repeat constructor |].
  unfold sep in *.
  destruct (Ascii.eqb a "/") eqn:Ha; [constructor; [reflexivity | exact IH] |].
  destruct (split "/" s) as [| h t] eqn:E; [destruct (split_nonempty s E) |].
  inversion IH; subst. constructor; [| assumption].
  cbn [str_in startswith]. rewrite Ascii.eqb_sym, Ha. simpl. assumption.
Qed.

Lemma fold_normpath_plain (k : nat) (l : list string) : forall acc,
  ".."%string ∉ l ->
  fold_left (normpath_step k) l acc = acc ++ kept l.
Proof.
  induction l as [| c l IH]; intros acc H; simpl.
  - rewrite app_nil_r. reflexivity.
  - apply not_elem_of_cons in H as [Hc Hl]. rewrite (IH _ Hl). unfold kept, normpath_step.
    destruct (String.eqb_spec c "") as [-> | H1].
    { simpl. rewrite filter_cons_False by (intros [? ?]; congruence). reflexivity. }
    destruct (String.eqb_spec c ".") as [-> | H2].
    { simpl. rewrite filter_cons_False by (intros [? ?]; congruence). reflexivity. }
    destruct (String.eqb_spec c "..") as [-> | H3]; [congruence |].
    simpl. rewrite filter_cons_True by auto. rewrite <- app_assoc. reflexivity.
Qed.

Lemma kept_all (l : list string) : Forall component l -> kept l = l.
Proof.
  induction 1 as [| c l [_ [H1 H2]] _ IH]; [reflexivity |].
  unfold kept. rewrite filter_cons_True by auto. fold (kept l). rewrite IH. reflexivity.
Qed.

Lemma kept_app (l m : list string) : kept (l ++ m) = kept l ++ kept m.
Proof. apply filter_app. Qed.

Lemma kept_component (s : string) : Forall component (kept (split sep s)).
Proof.
  unfold kept. apply Forall_forall. intros c Hc.
  apply list_elem_of_filter in Hc as [[H1 H2] Hin].
  pose proof (split_no_sep s) as H. rewrite Forall_forall in H.
  split; auto.
Qed.

Lemma components_rooted (l : list string) : Forall component l -> components (rooted l) = l.
Proof.
  intros H. unfold components, rooted. fold (kept (split sep ("/" +:+ PyStr.join "/" l))).
  change (split sep ("/" +:+ PyStr.join "/" l)) with (""%string :: split sep (PyStr.join "/" l)).
  destruct l as [| c l]; [reflexivity |].
  rewrite split_join; [| discriminate | eapply Forall_impl; [exact H | intros ? [? _]; assumption]].
  unfold kept. rewrite filter_cons_False by (intros [? ?]; congruence).
  apply kept_all, H.
Qed.

Lemma common_prefix_app (l m : list string) : common_prefix (l ++ m) l = l.
Proof. induction l as [| c l IH]; simpl; [destruct m; reflexivity |]. rewrite String.eqb_refl, IH. reflexivity. Qed.

Lemma common_prefix_is_prefix (cs : list string) : forall ps,
  common_prefix ps cs = cs -> cs `prefix_of` ps.
Proof.
  induction cs as [| c cs IH]; intros ps H; [apply prefix_nil |].
  destruct ps as [| p ps]; simpl in H; [discriminate |].
  destruct (String.eqb_spec p c) as [-> | Hne]; [| discriminate].
  injection H as H. apply prefix_cons, IH, H.
Qed.

Lemma common_prefix_component (ps cs : list string) :
  Forall component ps -> Forall component (common_prefix ps cs).
Proof.
  intros H. revert cs. induction H as [| p ps Hp _ IH]; intros cs; [constructor |].
  destruct cs as [| c cs]; simpl; [constructor |].
  destruct (String.eqb p c); constructor; auto.
Qed.

Lemma is_path_allowed_rooted (self : FileAgent.agent) (cs ps : list string) :
  FileAgent.working_directory self = rooted cs ->
  Forall component cs -> Forall component ps ->
  FileAgent._is_path_allowed self (rooted ps) = Some (bool_decide (cs `prefix_of` ps)).
Proof.
  intros Hwd Hcs Hps. unfold FileAgent._is_path_allowed, commonpath. rewrite Hwd.
  change (startswith "/" (rooted ps)) with true.
  change (startswith "/" (rooted cs)) with true.
  simpl Bool.eqb. cbv iota.
  rewrite !components_rooted by assumption.
  f_equal. fold (rooted (common_prefix ps cs)).
  destruct (decide (cs `prefix_of` ps)) as [[k ->] | Hn].
  - rewrite common_prefix_app, String.eqb_refl. symmetry. apply bool_decide_eq_true.
    exists k. reflexivity.
  - rewrite (bool_decide_eq_false_2 _ Hn). apply String.eqb_neq. intros Heq.
    apply Hn, common_prefix_is_prefix.
    rewrite <- (components_rooted (common_prefix ps cs))
      by (apply common_prefix_component, Hps).
    rewrite Heq. apply components_rooted, Hcs.
Qed.

Lemma endswith_char_app (x c : string) :
  c <> ""%string -> endswith_char sep (x +:+ c) = endswith_char sep c.
Proof.
  intros Hc. induction x as [| a x IH]; [reflexivity |].
  rewrite append_cons. cbn [endswith_char]. rewrite IH.
  destruct (x +:+ c) eqn:E; [| reflexivity].
  destruct x; [change (c = ""%string) in E; contradiction |
               rewrite append_cons in E; discriminate].
Qed.

Lemma endswith_char_component (c : string) :
  component c -> endswith_char sep c = false.
Proof.
  intros (Hs & Hne & _). induction c as [| a c IH]; [congruence |].
  assert (Ha : Ascii.eqb a sep = false).
  { cbn [str_in startswith] in Hs. apply orb_false_iff in Hs as [Hs _].
    unfold sep. rewrite Ascii.eqb_sym. destruct (Ascii.eqb "/" a); [discriminate | reflexivity]. }
  cbn [endswith_char]. destruct c as [| b c]; [exact Ha |].
  apply IH; [apply (str_in_cons_false _ _ _ Hs) | discriminate].
Qed.

Lemma component_nonempty_join (c : string) (cs : list string) :
  component c -> PyStr.join "/" (c :: cs) <> ""%string.
Proof.
  intros (_ & Hne & _). destruct c as [| a c]; [congruence |].
  destruct cs; simpl; discriminate.
Qed.

Lemma endswith_char_join (cs : list string) : forall x,
  cs <> [] -> Forall component cs -> endswith_char sep (x +:+ PyStr.join "/" cs) = false.
Proof.
  induction cs as [| c cs IH]; intros x Hne H; [contradiction |].
  inversion H as [| ? ? Hc Hcs]; subst.
  destruct cs as [| d cs].
  - simpl. rewrite endswith_char_app by (destruct Hc as (_ & ? & _); assumption).
    apply endswith_char_component, Hc.
  - change (PyStr.join "/" (c :: d :: cs)) with (c +:+ "/" +:+ PyStr.join "/" (d :: cs)).
    rewrite <- !string_app_assoc. apply IH; [discriminate | exact Hcs].
Qed.

Lemma startswith_sep_component (c x : string) :
  component c -> startswith "/" (c +:+ x) = false.
Proof.
  intros (Hs & Hne & _). destruct c as [| a c]; [congruence |].
  rewrite append_cons. cbn [str_in startswith] in *.
  apply orb_false_iff in Hs as [Hs _]. destruct (Ascii.eqb "/" a); [discriminate | reflexivity].
Qed.

(** joining a relative path to a rooted directory *)
Lemma join_rooted (cs : list string) (p : string) :
  Forall component cs -> startswith "/" p = false ->
  exists r, PosixPath.join (rooted cs) p = "/" +:+ r /\
            startswith "/" r = false /\
            split sep (PosixPath.join (rooted cs) p) = ""%string :: cs ++ split sep p.
Proof.
  intros Hcs Hp. unfold PosixPath.join. rewrite Hp.
  change (truthy (rooted cs)) with true. cbn [negb orb].
  destruct cs as [| c cs].
  - exists p. repeat split; auto.
  - assert (He : endswith_char sep (rooted (c :: cs)) = false)
      by (apply (endswith_char_join (c :: cs) "/"); [discriminate | exact Hcs]).
    rewrite He.
    exists (PyStr.join "/" (c :: cs) +:+ "/" +:+ p). split; [| split].
    + unfold rooted. rewrite string_app_assoc. reflexivity.
    + inversion Hcs; subst. destruct cs as [| d cs].
      * simpl. apply startswith_sep_component. assumption.
      * change (PyStr.join "/" (c :: d :: cs)) with (c +:+ "/" +:+ PyStr.join "/" (d :: cs)).
        rewrite string_app_assoc. apply startswith_sep_component. assumption.
    + rewrite split_app_sep. unfold rooted.
      change (split sep ("/" +:+ PyStr.join "/" (c :: cs)))
        with (""%string :: split sep (PyStr.join "/" (c :: cs))).
      rewrite split_join; [reflexivity | discriminate |].
      eapply Forall_impl; [exact Hcs | intros ? [? _]; assumption].
Qed.

Lemma normpath_rooted (cs : list string) (p : string) :
  Forall component cs -> ".."%string ∉ cs ->
  startswith "/" p = false -> ".."%string ∉ split sep p ->
  normpath (PosixPath.join (rooted cs) p) = rooted (cs ++ kept (split sep p)).
Proof.
  intros Hcs Hdd Hp Hpp.
  destruct (join_rooted cs p Hcs Hp) as (r & Hj & Hr & Hsplit).
  unfold normpath. rewrite Hsplit, Hj.
  change (truthy ("/" +:+ r)) with true. simpl negb. cbv iota.
  change (startswith "/" ("/" +:+ r)) with true. cbv iota.
  change (startswith "//" ("/" +:+ r)) with (startswith "/" r). rewrite Hr. simpl andb. cbv iota.
  assert (Hk : kept (""%string :: cs ++ split sep p) = cs ++ kept (split sep p)).
  { unfold kept at 1. rewrite filter_cons_False by (intros [? ?]; congruence).
    fold (kept (cs ++ split sep p)). rewrite kept_app, (kept_all cs Hcs). reflexivity. }
  rewrite fold_normpath_plain.
  - simpl app. rewrite Hk. reflexivity.
  - intros H. apply elem_of_cons in H as [H | H]; [discriminate |].
    apply elem_of_app in H as [H | H]; contradiction.
Qed.

(** X11. For a working directory and a path that are both absolute and
    made of plain components, the guard compares component by
    component: the path is allowed exactly when the components of the
    working directory are a prefix of the path's, so a sibling whose
    name merely starts with the directory's name is outside. *)
Theorem path_guard_by_components (self : FileAgent.agent) (cs ps : list string) :
  FileAgent.working_directory self = rooted cs ->
  Forall component cs -> Forall component ps ->
  FileAgent._is_path_allowed self (rooted ps) = Some (bool_decide (cs `prefix_of` ps)).
Proof. apply is_path_allowed_rooted. Qed.

(** X12. When the working directory is an absolute path [/c1/.../cn]
    of plain components, none of them [..], a relative path that has no
    [..] among its components resolves inside the working directory:
    the guard allows it, whatever the current directory of the process.
    A working directory that keeps two leading slashes is not of that
    form, and the guard then refuses every path
    ([double_slash_directory_refuses]). *)
Theorem relative_path_stays_inside (env : FileAgent.Env) (self : FileAgent.agent)
        (cs : list string) (p : string) :
  FileAgent.working_directory self = rooted cs ->
  Forall component cs -> ".."%string ∉ cs ->
  startswith "/" p = false -> ".."%string ∉ split sep p ->
  FileAgent._is_path_allowed self (FileAgent._get_full_path env self p) = Some true.
Proof.
  intros Hwd Hcs Hdd Hp Hpp.
  unfold FileAgent._get_full_path, abspath. rewrite Hwd.
  destruct (join_rooted cs p Hcs Hp) as (r & Hj & _ & _).
  assert (Habs : startswith "/" (PosixPath.join (rooted cs) p) = true)
    by (rewrite Hj; reflexivity).
  rewrite Habs, (normpath_rooted cs p Hcs Hdd Hp Hpp).
  rewrite (is_path_allowed_rooted self cs _ Hwd Hcs).
  - f_equal. apply bool_decide_eq_true. eexists. reflexivity.
  - apply Forall_app. split; [exact Hcs | apply kept_component].
Qed.

End PathGuard.

(** ** The executor *)

Section Executor.
Import FileAgent.

(** X7. A reply of the model that is, up to surrounding whitespace, a
    block between code fences comes back without the fences and
    stripped again: with the tag [python] after the opening fence, and
    with no tag when the block does not start with that word. *)
Theorem generated_code_unfenced (env : Env) (prompt reply fence body : string)
        (t : list agent_call) :
  completion env prompt = inr reply ->
  strip reply = fence +:+ body +:+ "```" ->
  fence = "```python"%string \/
  (fence = "```"%string /\ startswith "python" body = false) ->
  _get_ai_generated_code env prompt t = (inr (strip body), t ++ [CallCompletion prompt]).
Proof.
  intros Hc Hs Hf.
  unfold _get_ai_generated_code, log, bind, modify, of_sum, ret. rewrite Hc, Hs.
  destruct Hf as [-> | [-> Hb]].
  - rewrite startswith_app.
    rewrite (endswith_between "```python" body "```").
    simpl andb. cbv iota.
    change 9%nat with (String.length "```python").
    change 3%nat with (String.length "```") at 1.
    rewrite slice_between. reflexivity.
  - change (startswith "```python" ("```" +:+ body +:+ "```"))
      with (startswith "python" (body +:+ "```")).
    pose proof (no_python_tag body Hb) as Hn.
    rewrite Hn. simpl andb. cbv iota.
    rewrite (startswith_app "```").
    rewrite (endswith_between "```" body "```").
    simpl andb. cbv iota.
    change 3%nat with (String.length "```").
    rewrite slice_between. reflexivity.
Qed.

(** X8. For the kinds that have no prompt of their own (READ, MOVE and
    WRITE) the executor does not look at the operation beyond the path
    check: two such operations of one kind, both inside the working
    directory, send the same prompt and get the same outcome, whatever
    their paths, destinations and contents. *)
Theorem executor_ignores_target (env : Env) (self : agent) (op1 op2 : FileOperation)
        (t : list agent_call) :
  type op1 = type op2 ->
  type op1 <> LIST ->
  type op1 <> DELETE ->
  _is_path_allowed self (_get_full_path env self (path op1)) = Some true ->
  _is_path_allowed self (_get_full_path env self (path op2)) = Some true ->
  execute_operation env self op1 t = execute_operation env self op2 t.
Proof.
  intros Ht Hl Hd H1 H2. unfold execute_operation. rewrite H1, H2.
  unfold _create_operation_prompt. rewrite <- Ht.
  destruct (type op1); congruence.
Qed.

(** X9. Inside the working directory the executor asks for a completion
    once. When the completion raises, its error reaches the caller as it
    is and nothing is executed; when it returns, the code is executed
    once, and an error of the interpreter reaches the caller as an
    [Exception] whose message holds the interpreter's message and the
    code. *)
Theorem execute_operation_errors (env : Env) (self : agent) (operation : FileOperation)
        (t : list agent_call) :
  _is_path_allowed self (_get_full_path env self (path operation)) = Some true ->
  match completion env (_create_operation_prompt
                          operation (_get_full_path env self (path operation))) with
  | inl e =>
      execute_operation env self operation t =
      (inl e, t ++ [CallCompletion (_create_operation_prompt
                                      operation
                                      (_get_full_path env self (path operation)))])
  | inr _ =>
      exists code,
        snd (execute_operation env self operation t) =
        t ++ [CallCompletion (_create_operation_prompt
                                operation (_get_full_path env self (path operation)));
              CallExec code] /\
        match exec env code with
        | inr r => fst (execute_operation env self operation t) = inr r
        | inl e =>
            exists msg,
              fst (execute_operation env self operation t) = inl (Exception msg) /\
              str_in (str_exn e) msg = true /\ str_in code msg = true
        end
  end.
Proof.
  intros Ha. unfold execute_operation. rewrite Ha.
  unfold _get_ai_generated_code, _execute_code_snippet, log, bind, modify, of_sum,
         try_except, raise, ret.
  destruct (completion env _) as [e | reply]; [reflexivity |].
  set (code := strip reply).
  destruct (startswith "```python" code && endswith "```" code)%bool;
    [| destruct (startswith "```" code && endswith "```" code)%bool].
  1: exists (strip (slice 9 3 code)).
  2: exists (strip (slice 3 3 code)).
  3: exists code.
  all: simpl; destruct (exec env _) as [e | r]; simpl.
  all: split; [rewrite <- app_assoc; reflexivity |]; try reflexivity.
  all: eexists; split; [reflexivity |]; split.
  all: try (apply str_in_app_r, str_in_app_l, str_in_here, startswith_refl).
  all: do 4 apply str_in_app_r; apply str_in_here, startswith_refl.
Qed.

End Executor.

(** ** The approval prompt *)

Section Context.
Import FileAgent Orchestrator.

(** X10. The context sent to the reviewer names the request: it holds
    the user's words, the kind of the operation, the target path and,
    when there is one, the destination; and for every kind the
    classifier holds for high-risk it carries a warning. *)
Theorem approval_context_mentions_request (env : FileAgent.Env) (working_directory : string)
        (operation : FileOperation) (user_input : string) :
  str_in user_input (_create_approval_context operation user_input) = true /\
  str_in (type_value (type operation)) (_create_approval_context operation user_input)
  = true /\
  str_in (path operation) (_create_approval_context operation user_input) = true /\
  (forall d, destination operation = Some d ->
             str_in d (_create_approval_context operation user_input) = true) /\
  (is_high_risk_operation (FileAgent.init env working_directory) operation = true ->
   str_in "**Warning**" (_create_approval_context operation user_input) = true).
Proof.
  unfold _create_approval_context. repeat split.
  - apply str_in_app_l. do 2 apply str_in_app_r. apply str_in_app_l, str_in_here, startswith_refl.
  - apply str_in_app_r, str_in_app_l. do 2 apply str_in_app_r.
    apply str_in_app_l, str_in_here, startswith_refl.
  - do 2 apply str_in_app_r. apply str_in_app_l. do 2 apply str_in_app_r.
    apply str_in_here, startswith_refl.
  - intros d Hd. rewrite Hd. do 3 apply str_in_app_r. apply str_in_app_l.
    destruct (truthy d) eqn:Ht.
    + do 2 apply str_in_app_r. apply str_in_here, startswith_refl.
    + unfold truthy in Ht. apply negb_false_iff, String.eqb_eq in Ht. subst d. reflexivity.
  - intros Hr. do 4 apply str_in_app_r.
    unfold is_high_risk_operation in Hr. simpl in Hr.
    destruct (type operation); try (vm_compute in Hr; discriminate); vm_compute; reflexivity.
Qed.

End Context.

(** ** The approval loop, from outside *)

Lemma same_identity_refl (r : ApprovalRequest) : same_identity r r.
Proof. repeat split. Qed.

Lemma same_identity_trans (r1 r2 r3 : ApprovalRequest) :
  same_identity r1 r2 -> same_identity r2 r3 -> same_identity r1 r3.
Proof. intros (? & ? & ? & ?) (? & ? & ? & ?). repeat split; congruence. Qed.

Lemma same_identity_process (now : Z) (m : message) (r : ApprovalRequest) :
  same_identity r (_process_response now m r).
Proof. destruct (process_response_fields now m r) as (? & ? & ? & ? & _). repeat split; auto. Qed.

Lemma process_response_text (now : Z) (m : message) (r : ApprovalRequest) :
  _process_response now m r =
  let r' := set_response (responder m) now r in
  let text_lower := lower (response_text m) in
  if (str_in "approve" text_lower && str_in (lower (id r)) text_lower)%bool
  then set_status APPROVED r'
  else if ((str_in "deny" text_lower || str_in "reject" text_lower)
           && str_in (lower (id r)) text_lower)%bool
       then set_status DENIED r'
       else r'.
Proof. destruct m; reflexivity. Qed.

Section Coordinator.

Variable fromtimestamp : string -> option Z.
Variable DictReader : string -> list (gmap string string).
Variable json_loads : string -> option payload.
Variable self : client.

Abbreviation handle_message := (handle_message fromtimestamp self).
Abbreviation handle_messages := (handle_messages fromtimestamp self).
Abbreviation poll_once := (poll_once fromtimestamp DictReader json_loads self).
Abbreviation wait_loop := (wait_loop fromtimestamp DictReader json_loads self).

Lemma handle_message_kept r0 now st m :
  same_identity r0 (request st) -> kept_by r0 (handle_message now st m).
Proof.
  intros H. unfold SlackApproval.handle_message.
  destruct (_ && _)%bool; [exact H |].
  destruct (_is_bot_message _ _ _); [unfold add_seen; destruct (truthy _); exact H |].
  destruct (_is_approval_response _ _); [| unfold add_seen; destruct (truthy _); exact H].
  assert (Hr : request (add_seen (msg_ts m) st) = request st)
    by (unfold add_seen; destruct (truthy _); reflexivity).
  rewrite Hr.
  destruct (bool_decide _) eqn:Hd; simpl.
  - apply bool_decide_eq_true in Hd. split; [| exact Hd].
    eapply same_identity_trans; [exact H | apply same_identity_process].
  - eapply same_identity_trans; [exact H | apply same_identity_process].
Qed.

Lemma handle_messages_kept r0 now l : forall st,
  same_identity r0 (request st) -> kept_by r0 (handle_messages now st l).
Proof.
  induction l as [| m l IH]; intros st H; simpl; [exact H |].
  pose proof (handle_message_kept r0 now st m H) as Hm.
  destruct (handle_message now st m) as [st' | st']; [exact Hm | apply IH, Hm].
Qed.

Lemma poll_once_kept r0 st p :
  same_identity r0 (request st) ->
  match poll_once st p with
  | Normal o => kept_by r0 o
  | Escaped exc _ => escaped_from [p] exc
  end.
Proof.
  intros H. unfold SlackApproval.poll_once.
  destruct (fetched p) as [e | | c] eqn:Hf; simpl.
  - destruct (handle_error _ e) as [exc | st'] eqn:He.
    + destruct (handle_error_raises _ _ _ He) as (Hrate & digits & u & Hs & Hlen & ->).
      exists p, e, digits, u. repeat split; auto. apply list_elem_of_singleton. reflexivity.
    + simpl. destruct (handle_error_request _ _ _ He) as (-> & _). exact H.
  - exact H.
  - pose proof (handle_messages_kept r0 (clock p) (message_list DictReader json_loads c)
                                     (emit EvFetch st) H) as Hm.
    destruct (SlackApproval.handle_messages _ _ _ _ _); [exact Hm | exact Hm].
Qed.

Lemma escaped_from_cons p polls exc :
  escaped_from [p] exc \/ escaped_from polls exc -> escaped_from (p :: polls) exc.
Proof.
  intros [(q & e & digits & u & Hq & H) | (q & e & digits & u & Hq & H)];
    exists q, e, digits, u; (split; [| exact H]).
  - apply list_elem_of_singleton in Hq. subst q. left.
  - right. exact Hq.
Qed.

Lemma wait_run_kept r0 polls : forall st,
  same_identity r0 (request st) ->
  match wait_run fromtimestamp DictReader json_loads self st polls with
  | (None, st') => same_identity r0 (request st') /\ status (request st') <> PENDING
  | (Some exc, _) => escaped_from polls exc
  end.
Proof.
  induction polls as [| p polls IH]; intros st H; simpl.
  - split; [exact H | discriminate].
  - pose proof (poll_once_kept r0 st p H) as Hp.
    destruct (poll_once st p) as [[st' | st'] | exc st'].
    + exact Hp.
    + specialize (IH st' Hp).
      destruct (wait_run _ _ _ _ st' polls) as [[exc |] st'']; [| exact IH].
      apply escaped_from_cons. right. exact IH.
    + apply escaped_from_cons. left. exact Hp.
Qed.

Lemma wait_kept (request : ApprovalRequest) (polls : list poll) :
  match _wait_for_response fromtimestamp DictReader json_loads self request polls with
  | inr r => same_identity request r /\ status r <> PENDING
  | inl exc => escaped_from polls exc
  end.
Proof.
  unfold _wait_for_response.
  pose proof (wait_run_kept request polls (initial_state request) (same_identity_refl _)) as H.
  destruct (wait_run _ _ _ _ _ polls) as [[exc |] st']; exact H.
Qed.

(** X13. Whatever the channel returns and whatever the status of the
    request it is given, [_wait_for_response] ends in one of two ways.
    It comes back with a status other than PENDING, on the request it
    was given: id, operation, creation time and context are untouched.
    Or one of the fetches raised a rate-limit error whose retry hint has
    more digits than [int] accepts, and the [ValueError] of [int] leaves
    the loop. *)
Theorem wait_returns_terminal (request : ApprovalRequest) (polls : list poll) :
  match _wait_for_response fromtimestamp DictReader json_loads self request polls with
  | inr r => status r <> PENDING /\ same_identity request r
  | inl exc => escaped_from polls exc
  end.
Proof.
  pose proof (wait_kept request polls) as H.
  destruct (_wait_for_response _ _ _ _ _ _) as [exc | r]; [exact H |].
  destruct H. auto.
Qed.

Lemma passed_over_messages r0 now l : forall st,
  request st = r0 ->
  Forall (passed_over fromtimestamp self (id r0)) l ->
  exists st', handle_messages now st l = Running st' /\ request st' = r0 /\
              check_interval st' = check_interval st /\
              fetches (trace st') = fetches (trace st) /\
              (forall t, t ∈ seen_message_timestamps st' ->
                         t ∈ seen_message_timestamps st \/ t ∈ map msg_ts l).
Proof.
  induction l as [| m l IH]; intros st Hr H; simpl; [eauto 10 |].
  inversion H as [| ? ? Hm Hl]; subst.
  assert (Hs : forall st0, request (add_seen (msg_ts m) st0) = request st0 /\
                           check_interval (add_seen (msg_ts m) st0) = check_interval st0 /\
                           fetches (trace (add_seen (msg_ts m) st0)) = fetches (trace st0) /\
                           (forall t, t ∈ seen_message_timestamps (add_seen (msg_ts m) st0) ->
                                      t ∈ seen_message_timestamps st0 \/ t = msg_ts m)).
  { intros st0. unfold add_seen. destruct (truthy (msg_ts m)); simpl; [| auto].
    repeat split; auto. intros t Ht. apply elem_of_union in Ht as [Ht | Ht]; [| auto].
    apply elem_of_singleton in Ht. auto. }
  assert (Hstep : exists st1, handle_message now st m = Running st1 /\
                              request st1 = request st /\
                              check_interval st1 = check_interval st /\
                              fetches (trace st1) = fetches (trace st) /\
                              (forall t, t ∈ seen_message_timestamps st1 ->
                                         t ∈ seen_message_timestamps st \/ t = msg_ts m)).
  { unfold SlackApproval.handle_message.
    destruct (_ && _)%bool; [eauto 10 |].
    destruct (_is_bot_message _ _ _) eqn:Hb.
    - eexists; split; [reflexivity | apply Hs].
    - destruct Hm as [Hm | Hm]; [congruence |]. rewrite Hm.
      eexists; split; [reflexivity | apply Hs]. }
  destruct Hstep as (st1 & -> & Hr1 & Hc1 & Hf1 & Hseen1).
  destruct (IH st1 Hr1 Hl) as (st' & -> & ? & ? & ? & Hseen').
  exists st'. repeat split; try congruence.
  intros t Ht. destruct (Hseen' t Ht) as [Ht1 | Ht1].
  - destruct (Hseen1 t Ht1) as [? | ->]; [auto | right; left].
  - right; right. exact Ht1.
Qed.

(** Polls that show no candidate leave the loop running on the request
    as it was; it has seen no identifier but those of their messages. *)
Lemma quiet_polls (request : ApprovalRequest) earlier rest : forall st,
  SlackApproval.request st = request ->
  Forall (quiet fromtimestamp DictReader json_loads self (id request)) earlier ->
  exists st',
    wait_run fromtimestamp DictReader json_loads self st (earlier ++ rest)
    = wait_run fromtimestamp DictReader json_loads self st' rest /\
    SlackApproval.request st' = request /\
    fetches (trace st') = (fetches (trace st) + length earlier)%nat /\
    (forall t, t ∈ seen_message_timestamps st' ->
               t ∈ seen_message_timestamps st \/
               t ∈ identifiers DictReader json_loads earlier).
Proof.
  induction earlier as [| p earlier IH]; intros st Hr H; simpl.
  - exists st. repeat split; auto.
  - inversion H as [| ? ? Hp Hq]; subst.
    assert (Hstep : exists st1,
               poll_once st p = Normal (Running st1) /\
               SlackApproval.request st1 = SlackApproval.request st /\
               fetches (trace st1) = S (fetches (trace st)) /\
               (forall t, t ∈ seen_message_timestamps st1 ->
                          t ∈ seen_message_timestamps st \/
                          t ∈ map msg_ts (poll_messages DictReader json_loads p))).
    { assert (Hf : forall n s0, fetches (trace (sleep n s0)) = fetches (trace s0)).
      { intros n s0. simpl. rewrite fetches_app. unfold fetches at 2. simpl. lia. }
      assert (Hf1 : fetches (trace (emit EvFetch st)) = S (fetches (trace st))).
      { simpl. rewrite fetches_app. unfold fetches at 2. simpl. lia. }
      unfold SlackApproval.poll_once, quiet, poll_messages in *.
      destruct (fetched p) as [e | | c].
      - destruct Hp as [_ Hp].
        destruct (handle_error_returns (emit EvFetch st) e Hp) as (st1 & He). rewrite He.
        destruct (handle_error_request _ _ _ He) as (Hr1 & Hs1 & Hf2).
        exists st1. repeat split; [exact Hr1 | rewrite Hf2; exact Hf1 |].
        intros t Ht. rewrite Hs1 in Ht. left. exact Ht.
      - eexists. split; [reflexivity |]. repeat split; [rewrite Hf; exact Hf1 |].
        intros t Ht. left. exact Ht.
      - destruct (passed_over_messages (SlackApproval.request st) (clock p) _
                                       (emit EvFetch st) eq_refl Hp)
          as (st1 & -> & Hr1 & _ & Hf2 & Hs1).
        eexists. split; [reflexivity |].
        repeat split; [exact Hr1 | rewrite Hf, Hf2; exact Hf1 |].
        intros t Ht. exact (Hs1 t Ht). }
    destruct Hstep as (st1 & -> & Hr1 & Hf1 & Hs1).
    destruct (IH st1) as (st' & -> & Hr' & Hf' & Hs'); [congruence | exact Hq |].
    exists st'. repeat split; [exact Hr' | lia |].
    intros t Ht. unfold identifiers. simpl. rewrite map_app.
    destruct (Hs' t Ht) as [Ht1 | Ht1].
    + destruct (Hs1 t Ht1) as [? | ?]; [auto | right; apply elem_of_app; auto].
    + right. apply elem_of_app. right. exact Ht1.
Qed.

(** X14. A reply that names the request and holds the word approve
    settles it as soon as the loop reaches it. The fetches before the
    reply's showed no candidate and raised no error with an overlong
    hint, the messages before it in its own fetch are passed over, the
    reply is not taken for the bot's own, and its [ts], when it has one,
    is not the [ts] of any message the loop has been through: then the
    wait returns APPROVED with the reply's username (its user when it
    has no username key) as responder and the clock of that fetch as
    response time, and nothing after the reply matters. *)
Theorem approve_reply_resolves (request : ApprovalRequest) (d : Msg.dict)
        (earlier : list poll) (c : payload) (before after : list message)
        (now : Z) (rest : list poll) :
  Forall (quiet fromtimestamp DictReader json_loads self (id request)) earlier ->
  message_list DictReader json_loads c = before ++ MDict d :: after ->
  Forall (passed_over fromtimestamp self (id request)) before ->
  (truthy (msg_ts (MDict d)) = true ->
   msg_ts (MDict d) ∉ identifiers DictReader json_loads earlier ++ map msg_ts before) ->
  _is_bot_message fromtimestamp self (MDict d) = false ->
  str_in "approve" (lower (default ""%string (Msg.text d))) = true ->
  str_in (lower (id request)) (lower (default ""%string (Msg.text d))) = true ->
  _wait_for_response fromtimestamp DictReader json_loads self request
                     (earlier ++ {| fetched := FetchContent c; clock := now |} :: rest)
  = inr (set_status APPROVED (set_response (responder (MDict d)) now request)).
Proof.
  intros Hquiet Hlist Hbefore Hfresh Hbot Happ Hid.
  unfold _wait_for_response.
  destruct (quiet_polls request earlier
                        ({| fetched := FetchContent c; clock := now |} :: rest)
                        (initial_state request) eq_refl Hquiet)
    as (st1 & -> & Hr1 & _ & Hs1).
  simpl. unfold SlackApproval.poll_once. simpl. rewrite Hlist.
  assert (Hsplit : forall l1 l2 st,
             handle_messages now st (l1 ++ l2) =
             match handle_messages now st l1 with
             | Returned st' => Returned st'
             | Running st' => handle_messages now st' l2
             end).
  { induction l1 as [| m l1 IH]; intros l2 st; simpl; [reflexivity |].
    destruct (handle_message now st m); [reflexivity | apply IH]. }
  rewrite Hsplit.
  destruct (passed_over_messages request now before (emit EvFetch st1) Hr1 Hbefore)
    as (st2 & -> & Hr2 & _ & _ & Hs2).
  simpl. unfold SlackApproval.handle_message.
  assert (Hnew : (truthy (msg_ts (MDict d))
                  && bool_decide (msg_ts (MDict d) ∈ seen_message_timestamps st2))%bool
                 = false).
  { destruct (truthy (msg_ts (MDict d))) eqn:Ht; [| reflexivity]. simpl.
    apply bool_decide_eq_false. intros Hin. apply (Hfresh eq_refl).
    apply elem_of_app.
    destruct (Hs2 _ Hin) as [Hin1 | Hin1]; [| right; exact Hin1].
    simpl in Hin1. destruct (Hs1 _ Hin1) as [Hin0 | Hin0]; [| left; exact Hin0].
    simpl in Hin0. set_solver. }
  rewrite Hnew, Hbot.
  assert (Hc : _is_approval_response (MDict d) (id (SlackApproval.request st2)) = true).
  { rewrite Hr2. simpl. destruct (existsb _ _); [reflexivity |].
    unfold text_matches. rewrite Hid, Happ. reflexivity. }
  rewrite Hc.
  assert (Hr : SlackApproval.request (add_seen (msg_ts (MDict d)) st2) = request)
    by (unfold add_seen; destruct (truthy _); exact Hr2).
  rewrite Hr, process_response_text. cbn zeta. simpl response_text. simpl id.
  rewrite Happ, Hid. simpl. reflexivity.
Qed.

(** X15. When no message that any fetch returns is a candidate response
    for the request (each one is taken for the bot's own, or does not
    match), and every error a fetch raises is an ASCII text without an
    overlong retry hint, every fetch before the deadline is made and the
    request comes back as it was, with the status TIMEOUT and no
    responder. *)
Theorem no_candidate_times_out (request : ApprovalRequest) (polls : list poll) :
  Forall (quiet fromtimestamp DictReader json_loads self (id request)) polls ->
  _wait_for_response fromtimestamp DictReader json_loads self request polls
  = inr (set_status TIMEOUT request) /\
  fetches (trace (wait_loop (initial_state request) polls)) = length polls.
Proof.
  intros H. unfold _wait_for_response, SlackApproval.wait_loop.
  destruct (quiet_polls request polls [] (initial_state request) eq_refl H)
    as (st' & Hrun & Hr & Hf & _).
  rewrite app_nil_r in Hrun. rewrite Hrun. simpl. rewrite Hr, Hf. auto.
Qed.

End Coordinator.

(** X16. [request_approval] raises in four cases only: the session
    cannot be opened, the listing of the tools fails, all four attempts
    to post the prompt fail (the channel is then never polled), or a
    fetch raises a rate-limit error whose retry hint has more digits
    than [int] accepts. When it returns, the session was opened, the
    tools were listed and one of the four posts went through; it returns
    the request it created, under the id it drew, with a status other
    than PENDING, and the client remembers when the prompt was sent. *)
Theorem request_approval_outcome (fromtimestamp : string -> option Z)
        (DictReader : string -> list (gmap string string))
        (json_loads : string -> option payload) (channel : string) (timeout_minutes : Z) (s : Session)
        (operation : FileAgent.FileOperation) (context : string) :
  match fst (request_approval fromtimestamp DictReader json_loads
                              (init channel timeout_minutes) s operation context) with
  | inl exc =>
      initialize s = Some exc \/
      (initialize s = None /\ list_tools s = Some exc) \/
      (initialize s = None /\ list_tools s = None /\
       forall k, (k < 4)%nat -> is_Some (add_message s k)) \/
      (initialize s = None /\ list_tools s = None /\
       (exists k, (k < 4)%nat /\ add_message s k = None) /\
       escaped_from (polls s) exc)
  | inr r =>
      initialize s = None /\ list_tools s = None /\
      (exists k, (k < 4)%nat /\ add_message s k = None) /\
      same_identity (new_request (uuid8 s) operation (created s) context) r /\
      status r <> PENDING /\
      message_sent_timestamp
        (snd (request_approval fromtimestamp DictReader json_loads
                               (init channel timeout_minutes) s operation context))
      = Some (sent s)
  end.
Proof.
  unfold request_approval.
  destruct (initialize s) as [e |] eqn:Hi; simpl; [left; reflexivity |].
  destruct (list_tools s) as [e |] eqn:Hl; simpl; [right; left; auto |].
  assert (Hpost : match post_prompt s with
                  | Some _ => forall k, (k < 4)%nat -> is_Some (add_message s k)
                  | None => exists k, (k < 4)%nat /\ add_message s k = None
                  end).
  { unfold post_prompt.
    destruct (add_message s 0) as [e0 |] eqn:H0;
      [destruct (add_message s 1) as [e1 |] eqn:H1;
       [destruct (add_message s 2) as [e2 |] eqn:H2;
        [destruct (add_message s 3) as [e3 |] eqn:H3 | ] | ] | ].
    - intros k Hk.
      destruct k as [| [| [| [| k]]]]; try lia; rewrite ?H0, ?H1, ?H2, ?H3; eauto.
    - exists 3%nat. split; [lia | assumption].
    - exists 2%nat. split; [lia | assumption].
    - exists 1%nat. split; [lia | assumption].
    - exists 0%nat. split; [lia | assumption]. }
  destruct (post_prompt s) as [e |]; simpl; [right; right; left; auto |].
  match goal with
  | |- context [_wait_for_response ?f ?D ?j ?c ?r ?l] =>
      pose proof (wait_kept f D j c r l) as Hw;
      destruct (_wait_for_response f D j c r l) as [exc | r']
  end; simpl.
  - right; right; right. auto.
  - destruct Hw. auto 10.
Qed.

(** ** Candidates and their resolution *)

Lemma resolution_by_text_aux (now : Z) (m : message) (r : ApprovalRequest) :
  status r = PENDING ->
  (text_matches (id r) (response_text m) = true ->
   status (_process_response now m r) <> PENDING) /\
  (status (_process_response now m r) <> PENDING ->
   text_matches (id r) (response_text m) = true).
Proof.
  intros Hp. rewrite process_response_text. cbn zeta. unfold text_matches.
  destruct (str_in "approve" (lower (response_text m)));
    destruct (str_in (lower (id r)) (lower (response_text m)));
    destruct (str_in "deny" (lower (response_text m)) ||
              str_in "reject" (lower (response_text m)))%bool;
    simpl; rewrite ?Hp; split; intros; try congruence; try discriminate;
    try reflexivity.
Qed.

(** X17. The resolution step settles a pending request exactly when the
    text it reads holds the request id (in any case) together with
    approve, deny or reject. The word approve wins: with it and the id
    in the text the status is APPROVED, whatever else the text says. *)
Theorem resolution_by_text (now : Z) (m : message) (r : ApprovalRequest) :
  status r = PENDING ->
  (status (_process_response now m r) <> PENDING <->
   text_matches (id r) (response_text m) = true) /\
  (str_in "approve" (lower (response_text m)) = true ->
   str_in (lower (id r)) (lower (response_text m)) = true ->
   status (_process_response now m r) = APPROVED).
Proof.
  intros Hp. rewrite process_response_text. cbn zeta. unfold text_matches.
  destruct (str_in "approve" (lower (response_text m)));
    destruct (str_in (lower (id r)) (lower (response_text m)));
    destruct (str_in "deny" (lower (response_text m)) ||
              str_in "reject" (lower (response_text m)))%bool;
    simpl; rewrite ?Hp; split; try split; intros; try congruence; try discriminate;
    try reflexivity.
Qed.

(** X18. For a delimited table in which every line has all the fields
    of the header: a message read from it carries the five string keys
    and nothing else, so it can only be a candidate through its text.
    For such a message every candidate settles a pending request, and
    the responder recorded is the UserName column (empty when the
    column is empty or the header has none), never the UserID. *)
Theorem csv_candidate_resolves (DictReader : string -> list (gmap string string))
        (csv_content : string) (m : message) (now : Z) (r : ApprovalRequest) :
  m ∈ _parse_csv_messages DictReader csv_content ->
  status r = PENDING ->
  (exists row, row ∈ DictReader csv_content /\
               responded_by (_process_response now m r)
               = Some (default ""%string (row !! "UserName"%string)) /\
               msg_ts m = default ""%string (row !! "Time"%string)) /\
  (_is_approval_response m (id r) = true ->
   status (_process_response now m r) <> PENDING).
Proof.
  intros Hin Hp. unfold _parse_csv_messages in Hin.
  apply list_elem_of_fmap in Hin as (row & -> & Hrow).
  split.
  - exists row. split; [exact Hrow |].
    rewrite process_response_text. cbn zeta. simpl.
    repeat match goal with |- context [if ?b then _ else _] => destruct b end; auto.
  - intros Hc. simpl in Hc.
    apply (proj1 (resolution_by_text_aux now _ r Hp)). simpl.
    destruct (text_matches _ _); [reflexivity | discriminate].
Qed.

(** ** The heuristics of the bot filter *)

Lemma bot_skipped (fromtimestamp : string -> option Z) (self : client) (m : message)
      (now : Z) (st : loop_state) :
  _is_bot_message fromtimestamp self m = true ->
  exists st', handle_message fromtimestamp self now st m = Running st' /\
              request st' = request st /\ trace st' = trace st.
Proof.
  intros Hbot. unfold handle_message.
  destruct (_ && _)%bool; [eauto |].
  rewrite Hbot. destruct (add_seen_spec (msg_ts m) st) as (? & ? & _). eauto.
Qed.

(** X19. Two heuristics take a reply for the bot's own, whoever wrote
    it and whatever it says: a username that holds "bot" or "app" in any
    case, and a timestamp less than five seconds from the moment the
    prompt was sent. The loop passes such a reply over and the request
    stays as it is. *)
Theorem heuristic_bot_never_resolves (fromtimestamp : string -> option Z) (self : client)
        (d : Msg.dict) (now : Z) (st : loop_state) :
  (str_in "bot" (lower (default ""%string (Msg.username d))) = true \/
   str_in "app" (lower (default ""%string (Msg.username d))) = true) \/
  (exists sent t msg_time,
      message_sent_timestamp self = Some sent /\ Msg.ts d = Some t /\
      fromtimestamp t = Some msg_time /\ Z.abs (msg_time - sent) < 5000000) ->
  _is_bot_message fromtimestamp self (MDict d) = true /\
  exists st', handle_message fromtimestamp self now st (MDict d) = Running st' /\
              request st' = request st /\ trace st' = trace st.
Proof.
  intros H.
  assert (Hbot : _is_bot_message fromtimestamp self (MDict d) = true).
  { unfold _is_bot_message.
    destruct (match bot_user_id self with Some _ => _ | None => _ end); [reflexivity |].
    destruct H as [[H | H] | (sent & t & msg_time & Hs & Ht & Hf & Hlt)].
    - rewrite H. reflexivity.
    - rewrite H, orb_true_r. reflexivity.
    - destruct (_ || _)%bool; [reflexivity |].
      destruct (_ || _)%bool; [reflexivity |].
      rewrite Hs, Ht, Hf. apply Z.ltb_lt. exact Hlt. }
  split; [exact Hbot | apply bot_skipped, Hbot].
Qed.

(** X21. The client never learns the bot's identity: after
    [request_approval] the bot user id is unset, so the first test of
    the bot filter never fires and the [user] key of a message plays no
    part in its classification. *)
Theorem bot_user_id_is_never_set (fromtimestamp : string -> option Z)
        (DictReader : string -> list (gmap string string))
        (json_loads : string -> option payload) (channel : string) (timeout_minutes : Z)
        (s : Session) (operation : FileAgent.FileOperation) (context : string)
        (d : Msg.dict) (u : option string) :
  bot_user_id (snd (request_approval fromtimestamp DictReader json_loads
                                     (init channel timeout_minutes) s operation context))
  = None /\
  _is_bot_message fromtimestamp
                  (snd (request_approval fromtimestamp DictReader json_loads
                                         (init channel timeout_minutes) s operation context))
                  (MDict (with_user u d))
  = _is_bot_message fromtimestamp
                    (snd (request_approval fromtimestamp DictReader json_loads
                                           (init channel timeout_minutes) s operation context))
                    (MDict d).
Proof.
  pose proof (bot_identity_never_known fromtimestamp DictReader json_loads channel
                                       timeout_minutes s operation context) as H.
  split; [exact H |].
  unfold _is_bot_message. rewrite H. reflexivity.
Qed.

(** ** The pace of the loop *)

Lemma span_digits_all (s : string) : all_digits (fst (span_digits s)).
Proof.
  induction s as [| c s IH]; simpl; [constructor |].
  destruct (is_digit c) eqn:Hc; [| constructor].
  destruct (span_digits s) as [d r]. simpl in *. constructor; assumption.
Qed.

Lemma int_of_digits_nonneg (s : string) : all_digits s -> 0 <= int_of_digits s.
Proof.
  unfold int_of_digits, all_digits.
  assert (H : forall l acc, 0 <= acc -> Forall (fun c => is_digit c = true) l ->
            0 <= fold_left (fun acc c => 10 * acc + (Z.of_nat (nat_of_ascii c) - 48)) l acc).
  { induction l as [| c l IH]; intros acc Ha Hl; simpl; [exact Ha |].
    inversion Hl as [| ? ? Hc Hl']; subst. apply IH; [| exact Hl'].
    unfold is_digit in Hc. apply andb_true_iff in Hc as [Hc _].
    apply Nat.leb_le in Hc. lia. }
  apply H. lia.
Qed.

Lemma retry_search_digits (s : string) : forall digits u,
  retry_search s = Some (digits, u) -> all_digits digits.
Proof.
  assert (Hhere : forall s digits u, retry_match_here s = Some (digits, u) -> all_digits digits).
  { intros s0 digits u. unfold retry_match_here.
    destruct (startswith _ s0); [| discriminate].
    pose proof (span_digits_all (drop_chars 12 s0)) as Hd.
    destruct (span_digits _) as [ds rest]. simpl in Hd.
    destruct ds as [| c ds]; [discriminate |].
    destruct rest as [| c' rest]; [discriminate |].
    destruct (_ || _)%bool; [| discriminate].
    intros [= <- <-]. exact Hd. }
  induction s as [| c s IH]; intros digits u; simpl.
  - discriminate.
  - destruct (retry_match_here (String c s)) as [[ds w] |] eqn:E.
    + intros [= <- <-]. eapply Hhere, E.
    + apply IH.
Qed.

Section Pace.

Variable fromtimestamp : string -> option Z.
Variable DictReader : string -> list (gmap string string).
Variable json_loads : string -> option payload.
Variable self : client.

Lemma paced_emit e st : paced st -> sleep_bounded e -> paced (emit e st).
Proof.
  intros [Hc Ht] He. split; [exact Hc |]. simpl.
  apply Forall_app. split; [exact Ht | constructor; [exact He | constructor]].
Qed.

Lemma paced_sleep_interval st : paced st -> paced (sleep (check_interval st) st).
Proof. intros H. apply paced_emit; [exact H |]. destruct H as [[-> | ->] _]; simpl; lia. Qed.

Lemma paced_handle_message now st m :
  paced st ->
  match handle_message fromtimestamp self now st m with
  | Running st' | Returned st' => paced st'
  end.
Proof.
  intros [Hc Ht].
  destruct (handle_message_handled fromtimestamp self now st m)
    as [st' Hr Htr Hci _ _ | st' _ _ _ _ Htr Hci _ _].
  - split; [rewrite Hci; exact Hc | rewrite Htr; exact Ht].
  - assert (paced st').
    { split; [rewrite Hci; exact Hc |]. rewrite Htr.
      apply Forall_app. split; [exact Ht | constructor; [exact I | constructor]]. }
    destruct (bool_decide _); assumption.
Qed.

Lemma paced_handle_messages now l : forall st,
  paced st ->
  match handle_messages fromtimestamp self now st l with
  | Running st' | Returned st' => paced st'
  end.
Proof.
  induction l as [| m l IH]; intros st H; simpl; [exact H |].
  pose proof (paced_handle_message now st m H) as Hm.
  destruct (handle_message fromtimestamp self now st m); [exact Hm | apply IH, Hm].
Qed.

Lemma paced_handle_error st e st' :
  paced st -> handle_error st e = inr st' -> paced st'.
Proof.
  intros H. unfold handle_error.
  destruct (str_in _ _); [| intros [= <-]; apply paced_sleep_interval, H].
  destruct (retry_search _) as [[digits u] |] eqn:E.
  - unfold int. destruct (_ <? _)%nat; [discriminate |]. intros [= <-].
    apply paced_emit; [exact H |]. simpl.
    pose proof (int_of_digits_nonneg digits (retry_search_digits _ _ _ E)).
    destruct (Ascii.eqb u "m"); lia.
  - intros [= <-]. apply paced_emit.
    + destruct (paced_emit (EvSleep 5) st H ltac:(simpl; lia)) as [_ Ht].
      split; [right; reflexivity | exact Ht].
    + simpl. lia.
Qed.

Lemma paced_poll_once st p :
  paced st ->
  match poll_once fromtimestamp DictReader json_loads self st p with
  | Normal (Running st') | Normal (Returned st') | Escaped _ st' => paced st'
  end.
Proof.
  intros H. unfold poll_once.
  assert (H' : paced (emit EvFetch st)) by (apply paced_emit; [exact H | exact I]).
  destruct (fetched p) as [e | | c].
  - destruct (handle_error _ e) as [exc | st'] eqn:He;
      [exact H' | apply (paced_handle_error _ _ _ H' He)].
  - apply (paced_sleep_interval _ H').
  - pose proof (paced_handle_messages (clock p) (message_list DictReader json_loads c) _ H')
      as Hm.
    destruct (handle_messages _ _ _ _ _); [exact Hm | apply paced_sleep_interval, Hm].
Qed.

(** X20. The loop never sleeps long: every sleep it makes, between two
    fetches or after an error, lasts between 0 and 10 seconds, and the
    interval between two fetches is 3 or 10 seconds at any time. *)
Theorem sleeps_bounded (request : ApprovalRequest) (polls : list poll) :
  Forall sleep_bounded
         (trace (wait_loop fromtimestamp DictReader json_loads self
                           (initial_state request) polls)) /\
  (check_interval (wait_loop fromtimestamp DictReader json_loads self
                             (initial_state request) polls) = 3 \/
   check_interval (wait_loop fromtimestamp DictReader json_loads self
                             (initial_state request) polls) = 10).
Proof.
  assert (H : forall st, paced st ->
                         paced (wait_loop fromtimestamp DictReader json_loads self st polls)).
  { unfold wait_loop. induction polls as [| p polls IH]; intros st Hst; simpl.
    - destruct Hst as [Hc Ht]. split; assumption.
    - pose proof (paced_poll_once st p Hst) as Hp.
      destruct (poll_once _ _ _ _ st p) as [[st' | st'] | exc st'];
        [exact Hp | apply IH, Hp | exact Hp]. }
  destruct (H (initial_state request)) as [Hc Ht].
  - split; [left; reflexivity | constructor].
  - split; assumption.
Qed.

End Pace.

(** ** The error handler of the loop *)

(** [int_of_digits] reads a string as a decimal numeral: appending a
    digit multiplies by ten and adds the digit. *)
Lemma int_of_digits_snoc (s : string) (c : ascii) :
  int_of_digits (s +:+ String c "") = 10 * int_of_digits s + (Z.of_nat (nat_of_ascii c) - 48).
Proof.
  unfold int_of_digits.
  assert (H : list_ascii_of_string (s +:+ String c "") = list_ascii_of_string s ++ [c]).
  { induction s as [| a s IH]; simpl; [reflexivity |]. f_equal. exact IH. }
  rewrite H, fold_left_app. reflexivity.
Qed.

Example int_of_digits_values :
  int_of_digits "" = 0 /\ int_of_digits "7" = 7 /\ int_of_digits "30" = 30 /\
  int_of_digits "007" = 7 /\ int_of_digits "4300" = 4300 /\
  int "120" = inr 120 /\
  int (Scenario.nines 4300) = inr (10 ^ 4300 - 1) /\
  int (Scenario.nines 4301) = inl (digit_limit_error 4301).
Proof. vm_compute. auto 10. Qed.

Section Handler.

Variable fromtimestamp : string -> option Z.
Variable DictReader : string -> list (gmap string string).
Variable json_loads : string -> option payload.
Variable self : client.

Abbreviation poll_once := (poll_once fromtimestamp DictReader json_loads self).

(** X22. When a fetch raises an error whose ASCII message names a rate
    limit and holds a hint the regular expression reads, of at most 4300
    digits, the unit is [m] or [s], the loop sleeps for the smaller of
    the hinted seconds and 5, and goes on to the next fetch without the
    sleep of the interval. After any error in ASCII without an overlong
    hint the loop is still running, with the request and the seen
    identifiers untouched: it has slept for the interval when the
    message names no rate limit, and for 5 and then 10 seconds, the
    interval from then on, when it names one without a hint. *)
Theorem readable_hint_backs_off (st : loop_state) (e : exn) (c : Z)
        (digits : string) (u : ascii) :
  isascii (str_exn e) = true ->
  str_in "rate limit" (lower (str_exn e)) = true ->
  retry_search (str_exn e) = Some (digits, u) ->
  (String.length digits <= int_max_str_digits)%nat ->
  ((u = "m"%char \/ u = "s"%char) /\ all_digits digits /\ digits <> ""%string) /\
  poll_once st {| fetched := FetchRaise e; clock := c |} =
  Normal (Running (sleep (Z.min (if Ascii.eqb u "m" then int_of_digits digits * 60
                                 else int_of_digits digits) 5)
                         (emit EvFetch st))) /\
  0 <= Z.min (if Ascii.eqb u "m" then int_of_digits digits * 60 else int_of_digits digits) 5
    <= 5 /\
  (forall e' c',
      isascii (str_exn e') = true -> overlong_hint e' = false ->
      (exists st',
          poll_once st {| fetched := FetchRaise e'; clock := c' |} = Normal (Running st') /\
          request st' = request st /\
          seen_message_timestamps st' = seen_message_timestamps st) /\
      (str_in "rate limit" (lower (str_exn e')) = false ->
       poll_once st {| fetched := FetchRaise e'; clock := c' |}
       = Normal (Running (sleep (check_interval st) (emit EvFetch st)))) /\
      (str_in "rate limit" (lower (str_exn e')) = true ->
       retry_search (str_exn e') = None ->
       poll_once st {| fetched := FetchRaise e'; clock := c' |}
       = Normal (Running (sleep 10 (set_check_interval 10 (sleep 5 (emit EvFetch st))))))).
Proof.
  intros _ Hrate Hretry Hlen.
  pose proof (retry_search_unit _ _ _ Hretry) as [Hu Hne].
  pose proof (int_of_digits_nonneg digits (retry_search_digits _ _ _ Hretry)) as Hpos.
  split; [split; [exact Hu | split; [eapply retry_search_digits, Hretry | exact Hne]] |].
  split; [| split].
  - unfold SlackApproval.poll_once, handle_error, int. simpl. rewrite Hrate, Hretry.
    replace (int_max_str_digits <? String.length digits)%nat with false
      by (symmetry; apply Nat.ltb_ge; exact Hlen).
    reflexivity.
  - destruct (Ascii.eqb u "m"); lia.
  - intros e' c' _ Hcalm. split; [| split].
    + unfold SlackApproval.poll_once. simpl.
      destruct (handle_error_returns (emit EvFetch st) e' Hcalm) as (st' & He).
      rewrite He. exists st'. split; [reflexivity |].
      destruct (handle_error_request _ _ _ He) as (-> & -> & _). auto.
    + intros Hno. unfold SlackApproval.poll_once, handle_error. simpl. rewrite Hno.
      reflexivity.
    + intros Hyes Hnone. unfold SlackApproval.poll_once, handle_error. simpl.
      rewrite Hyes, Hnone. reflexivity.
Qed.

End Handler.

(** ** The further properties at work *)

Section MoreExamples.
Import Scenario FileAgent Orchestrator.

Lemma low_risk_skips_approval_witness :
  exists r s',
    process_request list_world (Orchestrator.init list_world "/ws")
                    "List all files in the directory" empty_store = (inr r, s') /\
    calls s' = calls empty_store ++
               AgentCall (CallIntent "List all files in the directory") ::
               map AgentCall
                   (snd (execute_operation (agent_env list_world)
                                           (agent (Orchestrator.init list_world "/ws"))
                                           list_here [])) /\
    r_required_approval r = false /\
    r_approval_status r = None /\
    result r = match fst (execute_operation (agent_env list_world)
                                            (agent (Orchestrator.init list_world "/ws"))
                                            list_here []) with
               | inr res => Some res
               | inl _ => None
               end /\
    success r = bool_decide (is_Some (result r)).
Proof.
  apply (low_risk_skips_approval list_world (Orchestrator.init list_world "/ws")
                                 "List all files in the directory" list_here empty_store).
  - reflexivity.
  - vm_compute. reflexivity.
Defined.

(** The listing of the working directory, end to end. *)
Example list_end_to_end :
  fst (process_request list_world (Orchestrator.init list_world "/ws")
                       "List all files in the directory" empty_store)
  = inr {| success := true; result := Some (PyList ["a.txt"%string]); r_error := None;
           r_required_approval := false; r_approval_status := None |} /\
  calls (snd (process_request list_world (Orchestrator.init list_world "/ws")
                              "List all files in the directory" empty_store))
  = [AgentCall (CallIntent "List all files in the directory");
     AgentCall (CallCompletion
                  (_create_operation_prompt list_here "/ws"));
     AgentCall (CallExec "result = os.listdir(p)")].
Proof. vm_compute. auto. Qed.

Lemma executor_needs_approval_witness :
  exists r s',
    process_request delete_outside_world (Orchestrator.init delete_outside_world "/ws")
                    "delete ../etc/passwd" empty_store = (inr r, s') /\
    success r = false /\
    result r = None /\
    r_required_approval r = true /\
    calls s' = calls empty_store ++
               [AgentCall (CallIntent "delete ../etc/passwd");
                ApprovalCall delete_outside
                             (_create_approval_context delete_outside "delete ../etc/passwd")].
Proof.
  apply (executor_needs_approval delete_outside_world
                                 (Orchestrator.init delete_outside_world "/ws")
                                 "delete ../etc/passwd" delete_outside empty_store).
  - reflexivity.
  - vm_compute. reflexivity.
  - intros a [= <-]. discriminate.
Defined.

Lemma execution_failure_reported_as_approval_error_witness :
  exists s' entry,
    process_request failing_delete_world (Orchestrator.init failing_delete_world "/ws")
                    "Delete the old-backup.zip file" empty_store =
    (inr {| success := false; result := None;
            r_error := Some ("Failed to get approval: " +:+
                             str_exn (Exception
                                        ("Failed to execute AI-generated code: " +:+
                                         "[Errno 13] Permission denied" +:+ nl +:+
                                         "Code: os.remove(p)")));
            r_required_approval := true; r_approval_status := Some "error"%string |}, s') /\
    audit_log s' = audit_log empty_store ++ [entry] /\
    approval_status entry = Some SlackApproval.APPROVED /\
    approved_by entry = SlackApproval.responded_by (answered SlackApproval.APPROVED
                                                             delete_backup) /\
    execution_result entry = None /\
    error entry = Some ("Approval system error: " +:+
                        str_exn (Exception
                                   ("Failed to execute AI-generated code: " +:+
                                    "[Errno 13] Permission denied" +:+ nl +:+
                                    "Code: os.remove(p)"))).
Proof.
  apply (execution_failure_reported_as_approval_error
           failing_delete_world (Orchestrator.init failing_delete_world "/ws")
           "Delete the old-backup.zip file" delete_backup
           (answered SlackApproval.APPROVED delete_backup)
           (Exception ("Failed to execute AI-generated code: " +:+
                       "[Errno 13] Permission denied" +:+ nl +:+ "Code: os.remove(p)"))
           (snd (execute_operation (agent_env failing_delete_world)
                                   (agent (Orchestrator.init failing_delete_world "/ws"))
                                   delete_backup []))
           empty_store).
  - reflexivity.
  - vm_compute. reflexivity.
  - reflexivity.
  - reflexivity.
  - vm_compute. reflexivity.
Defined.

Lemma generated_code_unfenced_witness :
  _get_ai_generated_code (agent_env fenced_world) "list the files" [] =
  (inr (strip (nl +:+ "result = os.listdir(p)" +:+ nl)), [] ++ [CallCompletion "list the files"]).
Proof.
  apply (generated_code_unfenced (agent_env fenced_world) "list the files" fenced_reply
                                 "```python" (nl +:+ "result = os.listdir(p)" +:+ nl) []).
  - reflexivity.
  - vm_compute. reflexivity.
  - left. reflexivity.
Defined.

Example fenced_code_is_bare :
  fst (_get_ai_generated_code (agent_env fenced_world) "list the files" [])
  = inr "result = os.listdir(p)"%string.
Proof. vm_compute. reflexivity. Qed.

Lemma executor_ignores_target_witness :
  execute_operation (agent_env list_world) (FileAgent.init (agent_env list_world) "/ws")
                    write_notes [] =
  execute_operation (agent_env list_world) (FileAgent.init (agent_env list_world) "/ws")
                    write_report [].
Proof.
  apply (executor_ignores_target (agent_env list_world)
                                 (FileAgent.init (agent_env list_world) "/ws")
                                 write_notes write_report []).
  - reflexivity.
  - discriminate.
  - discriminate.
  - vm_compute. reflexivity.
  - vm_compute. reflexivity.
Defined.

Lemma execute_operation_errors_witness :
  match completion (agent_env failing_delete_world)
                   (_create_operation_prompt
                      delete_backup
                      (_get_full_path (agent_env failing_delete_world)
                                      (FileAgent.init (agent_env failing_delete_world) "/ws")
                                      (path delete_backup))) with
  | inl e =>
      execute_operation (agent_env failing_delete_world)
                        (FileAgent.init (agent_env failing_delete_world) "/ws")
                        delete_backup [] =
      (inl e, [] ++ [CallCompletion
                       (_create_operation_prompt
                          delete_backup
                          (_get_full_path (agent_env failing_delete_world)
                                          (FileAgent.init (agent_env failing_delete_world)
                                                          "/ws")
                                          (path delete_backup)))])
  | inr _ =>
      exists code,
        snd (execute_operation (agent_env failing_delete_world)
                               (FileAgent.init (agent_env failing_delete_world) "/ws")
                               delete_backup []) =
        [] ++ [CallCompletion
                 (_create_operation_prompt
                    delete_backup
                    (_get_full_path (agent_env failing_delete_world)
                                    (FileAgent.init (agent_env failing_delete_world) "/ws")
                                    (path delete_backup)));
               CallExec code] /\
        match exec (agent_env failing_delete_world) code with
        | inr r =>
            fst (execute_operation (agent_env failing_delete_world)
                                   (FileAgent.init (agent_env failing_delete_world) "/ws")
                                   delete_backup []) = inr r
        | inl e =>
            exists msg,
              fst (execute_operation (agent_env failing_delete_world)
                                     (FileAgent.init (agent_env failing_delete_world) "/ws")
                                     delete_backup []) = inl (Exception msg) /\
              str_in (str_exn e) msg = true /\ str_in code msg = true
        end
  end.
Proof.
  apply (execute_operation_errors (agent_env failing_delete_world)
                                  (FileAgent.init (agent_env failing_delete_world) "/ws")
                                  delete_backup []).
  vm_compute. reflexivity.
Defined.

Ltac plain_component := split; [vm_compute; reflexivity | split; discriminate].
Ltac plain_components :=
  repeat (apply List.Forall_cons; [plain_component |]); apply List.Forall_nil.

Lemma path_guard_by_components_witness :
  _is_path_allowed (FileAgent.init (agent_env list_world) "/ws")
                   (PosixPath.rooted ["ws-evil"; "passwd"]%string)
  = Some (bool_decide (["ws"%string] `prefix_of` ["ws-evil"; "passwd"]%string)).
Proof.
  apply (path_guard_by_components (FileAgent.init (agent_env list_world) "/ws")
                                  ["ws"%string] ["ws-evil"; "passwd"]%string).
  - reflexivity.
  - plain_components.
  - plain_components.
Defined.

(** [abspath] keeps exactly two leading slashes and [commonpath] does
    not: under such a working directory the guard refuses the
    directory itself and every path below it. With three slashes
    [abspath] leaves one. *)
Example double_slash_directory_refuses :
  working_directory (FileAgent.init (agent_env list_world) "//ws2") = "//ws2"%string /\
  _get_full_path (agent_env list_world) (FileAgent.init (agent_env list_world) "//ws2") "x"
  = "//ws2/x"%string /\
  _is_path_allowed (FileAgent.init (agent_env list_world) "//ws2") "//ws2/x" = Some false /\
  _is_path_allowed (FileAgent.init (agent_env list_world) "//ws2") "//ws2" = Some false /\
  working_directory (FileAgent.init (agent_env list_world) "///ws3") = "/ws3"%string /\
  _is_path_allowed (FileAgent.init (agent_env list_world) "///ws3") "/ws3/x" = Some true.
Proof. vm_compute. auto 10. Qed.

(** a sibling of the working directory whose name starts like it *)
Example sibling_is_outside :
  _is_path_allowed (FileAgent.init (agent_env list_world) "/ws") "/ws-evil/passwd"
  = Some false /\
  _is_path_allowed (FileAgent.init (agent_env list_world) "/ws") "/ws/evil/passwd"
  = Some true.
Proof. vm_compute. auto. Qed.

Lemma relative_path_stays_inside_witness :
  _is_path_allowed (FileAgent.init (agent_env list_world) "/ws")
                   (_get_full_path (agent_env list_world)
                                   (FileAgent.init (agent_env list_world) "/ws")
                                   "reports/./2024//q1.txt")
  = Some true.
Proof.
  apply (relative_path_stays_inside (agent_env list_world)
                                    (FileAgent.init (agent_env list_world) "/ws")
                                    ["ws"%string] "reports/./2024//q1.txt").
  - reflexivity.
  - plain_components.
  - apply not_elem_of_cons. split; [discriminate | apply not_elem_of_nil].
  - reflexivity.
  - replace (PyStr.split PosixPath.sep "reports/./2024//q1.txt")
      with ["reports"; "."; "2024"; ""; "q1.txt"]%string by reflexivity.
    repeat (apply not_elem_of_cons; split; [discriminate |]). apply not_elem_of_nil.
Defined.

End MoreExamples.

Section MoreApprovalExamples.
Import Scenario.

Lemma approve_reply_resolves_witness :
  _wait_for_response Scenario.fromtimestamp Scenario.DictReader Scenario.json_loads
                     Scenario.client pending
                     ([fetch_of [chatter] (t0 + 31000000);
                       {| fetched := FetchRaise short_hint; clock := t0 + 34000000 |}]
                        ++ {| fetched := FetchContent
                                           (PList [chatter;
                                                   MDict (reply_dict "alice" "1700000060.000100"
                                                                     "Approve AB12CD34, go ahead");
                                                   deny_reply]);
                              clock := t0 + 61000000 |}
                        :: [fetch_of [deny_reply] (t0 + 91000000)])
  = inr (set_status APPROVED
                    (set_response "alice" (t0 + 61000000) pending)).
Proof.
  apply (approve_reply_resolves Scenario.fromtimestamp Scenario.DictReader Scenario.json_loads
                                Scenario.client pending
                                (reply_dict "alice" "1700000060.000100"
                                            "Approve AB12CD34, go ahead")
                                [fetch_of [chatter] (t0 + 31000000);
                                 {| fetched := FetchRaise short_hint; clock := t0 + 34000000 |}]
                                (PList [chatter;
                                        MDict (reply_dict "alice" "1700000060.000100"
                                                          "Approve AB12CD34, go ahead");
                                        deny_reply])
                                [chatter] [deny_reply] (t0 + 61000000)
                                [fetch_of [deny_reply] (t0 + 91000000)]).
  - apply List.Forall_cons; [| apply List.Forall_cons; [| apply List.Forall_nil]].
    + apply List.Forall_cons; [right; reflexivity | apply List.Forall_nil].
    + split; reflexivity.
  - reflexivity.
  - apply List.Forall_cons; [right; reflexivity | apply List.Forall_nil].
  - intros _ H. vm_compute in H.
    repeat (apply elem_of_cons in H as [H | H]; [discriminate H |]).
    inversion H.
  - reflexivity.
  - reflexivity.
  - reflexivity.
Defined.

(** An approval written into a message the loop has been through is
    not read: bob's question is seen in the first fetch, and when the
    second fetch shows the same [ts] with an approval as text, the
    message is skipped and the request times out. *)
Example edited_message_is_not_read :
  _wait_for_response Scenario.fromtimestamp Scenario.DictReader Scenario.json_loads
                     Scenario.client pending
                     [fetch_of [chatter] (t0 + 31000000);
                      fetch_of [MDict (reply_dict "bob" "1700000030.000050"
                                                  "approve ab12cd34")]
                               (t0 + 61000000)]
  = inr (set_status TIMEOUT pending).
Proof. vm_compute. reflexivity. Qed.

Lemma no_candidate_times_out_witness :
  _wait_for_response Scenario.fromtimestamp Scenario.DictReader Scenario.json_loads
                     Scenario.client pending
                     [fetch_of [MDict prompt_echo; chatter] (t0 + 61000000);
                      {| fetched := FetchRaise rate_limited; clock := t0 + 64000000 |};
                      {| fetched := FetchRaise broken_pipe; clock := t0 + 67000000 |};
                      fetch_of [chatter] (t0 + 70000000)]
  = inr (set_status TIMEOUT pending) /\
  fetches (trace (wait_loop Scenario.fromtimestamp Scenario.DictReader Scenario.json_loads
                            Scenario.client (initial_state pending)
                            [fetch_of [MDict prompt_echo; chatter] (t0 + 61000000);
                             {| fetched := FetchRaise rate_limited; clock := t0 + 64000000 |};
                             {| fetched := FetchRaise broken_pipe; clock := t0 + 67000000 |};
                             fetch_of [chatter] (t0 + 70000000)]))
  = 4%nat.
Proof.
  apply (no_candidate_times_out Scenario.fromtimestamp Scenario.DictReader Scenario.json_loads
                                Scenario.client pending).
  apply List.Forall_cons;
    [| apply List.Forall_cons;
       [| apply List.Forall_cons; [| apply List.Forall_cons; [| apply List.Forall_nil]]]].
  - apply List.Forall_cons; [left; reflexivity |].
    apply List.Forall_cons; [right; reflexivity | apply List.Forall_nil].
  - split; reflexivity.
  - split; reflexivity.
  - apply List.Forall_cons; [right; reflexivity | apply List.Forall_nil].
Defined.

Lemma readable_hint_backs_off_witness :
  (("s"%char = "m"%char \/ "s"%char = "s"%char) /\ all_digits "3" /\ "3"%string <> ""%string) /\
  poll_once Scenario.fromtimestamp Scenario.DictReader Scenario.json_loads Scenario.client
            (initial_state pending) {| fetched := FetchRaise short_hint; clock := t0 + 3000000 |}
  = Normal (Running (sleep 3 (emit EvFetch (initial_state pending)))) /\
  0 <= 3 <= 5 /\
  (forall e' c',
      isascii (str_exn e') = true -> overlong_hint e' = false ->
      (exists st',
          poll_once Scenario.fromtimestamp Scenario.DictReader Scenario.json_loads
                    Scenario.client (initial_state pending)
                    {| fetched := FetchRaise e'; clock := c' |} = Normal (Running st') /\
          request st' = pending /\
          seen_message_timestamps st' = ∅) /\
      (str_in "rate limit" (lower (str_exn e')) = false ->
       poll_once Scenario.fromtimestamp Scenario.DictReader Scenario.json_loads
                 Scenario.client (initial_state pending)
                 {| fetched := FetchRaise e'; clock := c' |}
       = Normal (Running (sleep 3 (emit EvFetch (initial_state pending))))) /\
      (str_in "rate limit" (lower (str_exn e')) = true ->
       retry_search (str_exn e') = None ->
       poll_once Scenario.fromtimestamp Scenario.DictReader Scenario.json_loads
                 Scenario.client (initial_state pending)
                 {| fetched := FetchRaise e'; clock := c' |}
       = Normal (Running (sleep 10 (set_check_interval 10
                                      (sleep 5 (emit EvFetch (initial_state pending)))))))).
Proof.
  apply (readable_hint_backs_off Scenario.fromtimestamp Scenario.DictReader
                                 Scenario.json_loads Scenario.client
                                 (initial_state pending) short_hint (t0 + 3000000) "3" "s").
  - reflexivity.
  - reflexivity.
  - reflexivity.
  - vm_compute. lia.
Defined.

(** Two minutes are cut to five seconds; an error that names no rate
    limit costs the interval; a rate limit without a hint costs five
    seconds and then ten, the interval from then on. *)
Example backoff_values :
  poll_once Scenario.fromtimestamp Scenario.DictReader Scenario.json_loads Scenario.client
            (initial_state pending)
            {| fetched := FetchRaise minutes_hint; clock := t0 + 3000000 |}
  = Normal (Running (sleep 5 (emit EvFetch (initial_state pending)))) /\
  poll_once Scenario.fromtimestamp Scenario.DictReader Scenario.json_loads Scenario.client
            (initial_state pending)
            {| fetched := FetchRaise rate_limited; clock := t0 + 3000000 |}
  = Normal (Running (sleep 5 (emit EvFetch (initial_state pending)))) /\
  trace (wait_loop Scenario.fromtimestamp Scenario.DictReader Scenario.json_loads
                   Scenario.client (initial_state pending)
                   [{| fetched := FetchRaise broken_pipe; clock := t0 + 3000000 |};
                    {| fetched := FetchRaise (Exception "rate limit reached");
                       clock := t0 + 6000000 |};
                    {| fetched := FetchNoContent; clock := t0 + 21000000 |}])
  = [EvFetch; EvSleep 3; EvFetch; EvSleep 5; EvSleep 10; EvFetch; EvSleep 10].
Proof. vm_compute. auto. Qed.

Lemma resolution_by_text_witness :
  (status (_process_response (t0 + 61000000)
                             (MDict (reply_dict "dave" "1700000060.000100"
                                                "I disapprove ab12cd34 - deny it"))
                             pending) <> PENDING <->
   text_matches (id pending)
                (response_text (MDict (reply_dict "dave" "1700000060.000100"
                                                  "I disapprove ab12cd34 - deny it")))
   = true) /\
  (str_in "approve"
          (lower (response_text (MDict (reply_dict "dave" "1700000060.000100"
                                                   "I disapprove ab12cd34 - deny it"))))
   = true ->
   str_in (lower (id pending))
          (lower (response_text (MDict (reply_dict "dave" "1700000060.000100"
                                                   "I disapprove ab12cd34 - deny it"))))
   = true ->
   status (_process_response (t0 + 61000000)
                             (MDict (reply_dict "dave" "1700000060.000100"
                                                "I disapprove ab12cd34 - deny it"))
                             pending) = APPROVED).
Proof.
  apply (resolution_by_text (t0 + 61000000)
                            (MDict (reply_dict "dave" "1700000060.000100"
                                               "I disapprove ab12cd34 - deny it"))
                            pending).
  reflexivity.
Defined.

(** a reply that disapproves is read as an approval *)
Example disapprove_is_approved :
  status (_process_response (t0 + 61000000)
                            (MDict (reply_dict "dave" "1700000060.000100"
                                               "I disapprove ab12cd34 - deny it"))
                            pending) = APPROVED.
Proof. reflexivity. Qed.

Lemma csv_candidate_resolves_witness :
  (exists row, row ∈ csv_reader "UserID,UserName,Text,Time,Channel" /\
               responded_by (_process_response (t0 + 61000000) csv_message pending)
               = Some (default ""%string (row !! "UserName"%string)) /\
               msg_ts csv_message = default ""%string (row !! "Time"%string)) /\
  (_is_approval_response csv_message (id pending) = true ->
   status (_process_response (t0 + 61000000) csv_message pending) <> PENDING).
Proof.
  apply (csv_candidate_resolves csv_reader "UserID,UserName,Text,Time,Channel" csv_message
                                (t0 + 61000000) pending).
  - replace (_parse_csv_messages csv_reader "UserID,UserName,Text,Time,Channel")
      with [csv_message] by (vm_compute; reflexivity).
    apply list_elem_of_here.
  - reflexivity.
Defined.

Lemma heuristic_bot_never_resolves_witness :
  _is_bot_message Scenario.fromtimestamp Scenario.client
                  (MDict (reply_dict "Appleton" "1700000060.000100" "approve ab12cd34"))
  = true /\
  exists st',
    handle_message Scenario.fromtimestamp Scenario.client (t0 + 61000000)
                   (initial_state pending)
                   (MDict (reply_dict "Appleton" "1700000060.000100" "approve ab12cd34"))
    = Running st' /\
    request st' = request (initial_state pending) /\
    trace st' = trace (initial_state pending).
Proof.
  apply (heuristic_bot_never_resolves Scenario.fromtimestamp Scenario.client
                                      (reply_dict "Appleton" "1700000060.000100"
                                                  "approve ab12cd34")
                                      (t0 + 61000000) (initial_state pending)).
  left. right. reflexivity.
Defined.

End MoreApprovalExamples.
